(** * excel-mcp-server: the tool dispatcher of [excel_mcp/server.py]

    A shallow embedding of [get_excel_path], [list_tools], [call_tool] and
    [read_resource], and the properties of the dispatch layer proved on it.

    Conventions of the embedding.
    - Values that cross the transport boundary are JSON values; they are
      embedded as [PyVal].  The argument bag of a call is a Python [dict]
      that the code only reads with [.get]: it is a [gmap string PyVal].
      A [dict] that occurs as a value keeps its insertion order (iteration
      and [str] depend on it) and is an association list.
    - [os.path] is [posixpath]: the separator is "/".
    - A Python [str] is embedded as a [string]; its elements stand for the
      characters of the Python string.
    - The backend operations ([excel_mcp.validation], [excel_mcp.data], ...)
      are not part of this file: they are an oracle, a parameter of the
      development, that answers a call with a returned value or a raised
      exception and may change the state of the file system.
    - Exceptions are the subclasses of [Exception].  Interpreter signals
      that derive from [BaseException] only ([KeyboardInterrupt],
      [SystemExit]) are raised asynchronously from outside the code and are
      not part of the embedding.
    - Logging and the deferred [import] statements have no effect on the
      values computed and are left out. *)

From Stdlib Require Import PrimFloat Ascii String.
From stdpp Require Import base strings list gmap.

Set Warnings "-register-all".

Local Open Scope string_scope.

(** ** Python values *)

Inductive PyVal : Type :=
| PyNone
| PyBool (b : bool)
| PyInt (z : Z)
| PyFloat (f : float)
| PyStr (s : string)
| PyList (l : list PyVal)
| PyDict (d : list (string * PyVal)).

(** [bool(v)]: the truth value Python gives to [v] in [not v], [all([...])]
    and [a or b]. *)
Definition truthy (v : PyVal) : bool :=
  match v with
  | PyNone => false
  | PyBool b => b
  | PyInt z => negb (Z.eqb z 0)
  | PyFloat f => negb (PrimFloat.eqb f PrimFloat.zero)
  | PyStr s => negb (String.eqb s "")
  | PyList l => match l with [] => false | _ => true end
  | PyDict d => match d with [] => false | _ => true end
  end.

(** [v[key]] on a dictionary value: the first binding of [key]. *)
Fixpoint dict_lookup (key : string) (d : list (string * PyVal)) : option PyVal :=
  match d with
  | [] => None
  | (k, v) :: d' => if String.eqb k key then Some v else dict_lookup key d'
  end.

(** [isinstance(v, dict) and key in v] *)
Definition is_dict_with (key : string) (v : PyVal) : bool :=
  match v with
  | PyDict d => match dict_lookup key d with Some _ => true | None => false end
  | _ => false
  end.

(** The characters of a string, each as a string of length one: what
    iterating over a Python [str] yields. *)
Fixpoint chars (s : string) : list string :=
  match s with
  | EmptyString => []
  | String c s' => String c EmptyString :: chars s'
  end.

(** ** Strings and paths ([posixpath]) *)

(** [s.endswith("/")] *)
Fixpoint endswith_sep (s : string) : bool :=
  match s with
  | EmptyString => false
  | String c EmptyString => Ascii.eqb c ("/"%char)
  | String _ s' => endswith_sep s'
  end.

(** [s.startswith(p)] *)
Fixpoint startswith (s p : string) {struct p} : bool :=
  match p with
  | EmptyString => true
  | String a p' =>
      match s with
      | EmptyString => false
      | String b s' => Ascii.eqb b a && startswith s' p'
      end
  end.

(** [os.path.isabs(s)]: [s.startswith("/")] *)
Definition isabs (s : string) : bool := startswith s "/".

(** [os.path.join(a, b)] with two arguments. *)
Definition path_join (a b : string) : string :=
  if startswith b "/" then b
  else if String.eqb a "" || endswith_sep a then a ++ b
  else a ++ "/" ++ b.

(** [get_excel_path(filename)], for a [filename] that is a [str];
    [root] is the module constant [EXCEL_FILES_PATH]. *)
Definition get_excel_path (root filename : string) : string :=
  if isabs filename then filename else path_join root filename.

(** The value of [EXCEL_FILES_PATH] when the environment does not set it. *)
Definition default_root : string := "./excel_files".

(** ** Exceptions *)

(** Modelled from the spec: the module [excel_mcp.exceptions], which
    declares the exception classes that [server.py] imports, is missing.
    Its eight classes are the closed set of domain
    error kinds of the backend; none is a subclass of another.  The other
    constructors are the classes the interpreter and the transport types
    raise inside [call_tool] ([pydantic]'s [ValidationError] is a class of
    its own, unrelated to the domain class of the same name), and
    [OtherException] stands for any further subclass of [Exception]. *)
Inductive exc_class : Type :=
| ValidationError | WorkbookError | SheetError | DataError
| FormattingError | CalculationError | PivotError | ChartError
| TypeError | KeyError | ValueError | PydanticValidationError
| OtherException.

#[global] Instance exc_class_eq_dec : EqDecision exc_class.
Proof. solve_decision. Defined.

Definition is_domain_kind (c : exc_class) : bool :=
  match c with
  | ValidationError | WorkbookError | SheetError | DataError
  | FormattingError | CalculationError | PivotError | ChartError => true
  | _ => false
  end.

(** An exception object: its class and [str(e)]. *)
Record exn : Type := Exn { exn_class : exc_class; exn_msg : string }.

(** The faults the interpreter itself raises in the code of [call_tool]. *)
Inductive fault : Type :=
| FspathOf (v : PyVal)          (* os.path.isabs(v), v not a str *)
| NotSubscriptable (v : PyVal)  (* v["message"], v not a dict *)
| MissingKey (k : string)       (* d[k], k not in d *)
| NotIterable (v : PyVal)       (* for row in v *)
| TextNotStr (v : PyVal).       (* TextContent(text=v), v not a str *)

Definition fault_class (f : fault) : exc_class :=
  match f with
  | FspathOf _ | NotSubscriptable _ | NotIterable _ => TypeError
  | MissingKey _ => KeyError
  | TextNotStr _ => PydanticValidationError
  end.

(** ** Results *)

(** [mcp.types.TextContent] *)
Record TextContent : Type := { type : string; text : string }.

(** [TextContent(type="text", text=s)] *)
Definition text_item (s : string) : TextContent := {| type := "text"; text := s |}.

Inductive res (A : Type) : Type :=
| Ok (a : A)
| Raise (e : exn).
Arguments Ok {A} a.
Arguments Raise {A} e.

(** ** The backend boundary *)

(** The keyword arguments of [excel_mcp.formatting.format_range]. *)
Record format_range_kwargs : Type := {
  fr_filepath : string;
  fr_sheet_name : PyVal;
  fr_start_cell : PyVal;
  fr_end_cell : PyVal;
  fr_bold : PyVal;
  fr_italic : PyVal;
  fr_underline : PyVal;
  fr_font_size : PyVal;
  fr_font_color : PyVal;
  fr_bg_color : PyVal;
  fr_border_style : PyVal;
  fr_border_color : PyVal;
  fr_number_format : PyVal;
  fr_alignment : PyVal;
  fr_wrap_text : PyVal;
  fr_merge_cells : PyVal;
  fr_protection : PyVal;
  fr_conditional_format : PyVal
}.

(** One constructor per backend function that [call_tool] calls, with the
    arguments in the order of the call.  The first argument is always the
    resolved file path. *)
Inductive backend_call : Type :=
| validate_formula_impl (filepath : string) (sheet_name cell formula : PyVal)
| apply_formula_impl (filepath : string) (sheet_name cell formula : PyVal)
| format_range_func (kw : format_range_kwargs)
| read_excel_range (filepath : string)
    (sheet_name start_cell end_cell preview_only : PyVal)
| write_data (filepath : string)
    (sheet_name data start_cell write_headers : PyVal)
| create_workbook_impl (filepath : string)
| create_worksheet_impl (filepath : string) (sheet_name : PyVal)
| create_chart_impl (filepath : string)
    (sheet_name data_range chart_type target_cell title x_axis y_axis : PyVal)
| create_pivot_table_impl (filepath : string)
    (sheet_name data_range rows values columns agg_func : PyVal)
| copy_sheet (filepath : string) (source_sheet target_sheet : PyVal)
| delete_sheet (filepath : string) (sheet_name : PyVal)
| rename_sheet (filepath : string) (old_name new_name : PyVal)
| get_workbook_info (filepath : string) (include_ranges : PyVal)
| merge_range (filepath : string) (sheet_name start_cell end_cell : PyVal)
| unmerge_range (filepath : string) (sheet_name start_cell end_cell : PyVal)
| copy_range_operation (filepath : string)
    (sheet_name source_start source_end target_start target_sheet : PyVal)
| delete_range_operation (filepath : string)
    (sheet_name start_cell end_cell shift_direction : PyVal)
| validate_range_impl (filepath : string) (sheet_name range_str : PyVal).

(** What a backend call does: it returns a value or raises. *)
Inductive outcome : Type :=
| Returned (v : PyVal)
| Raised (e : exn).

(** One entry of the log of backend calls: the call and how it ended. *)
Definition event : Type := backend_call * outcome.

(** ** The tool catalog *)

Record Property : Type := {
  prop_name : string;
  prop_type : string;
  prop_description : string
}.

(** [mcp.types.Tool], with the two entries of [inputSchema] that vary. *)
Record Tool : Type := {
  tool_name : string;
  tool_description : string;
  properties : list Property;
  required : list string
}.

Definition prop (n t d : string) : Property :=
  {| prop_name := n; prop_type := t; prop_description := d |}.

(** [list_tools()]: the eighteen descriptors, in the order of the source. *)
Definition list_tools : list Tool := [
  {| tool_name := "apply_formula";
     tool_description := "Apply Excel formula to cell";
     properties := [
       prop "filepath" "string" "Path to Excel file";
       prop "sheet_name" "string" "Name of worksheet";
       prop "cell" "string" "Cell reference (e.g., A1)";
       prop "formula" "string" "Excel formula to apply"];
     required := ["filepath"; "sheet_name"; "cell"; "formula"] |};
  {| tool_name := "validate_formula_syntax";
     tool_description := "Validate Excel formula syntax without applying it";
     properties := [
       prop "filepath" "string" "Path to Excel file";
       prop "sheet_name" "string" "Name of worksheet";
       prop "cell" "string" "Cell reference (e.g., A1)";
       prop "formula" "string" "Excel formula to validate"];
     required := ["filepath"; "sheet_name"; "cell"; "formula"] |};
  {| tool_name := "format_range";
     tool_description := "Apply formatting to a range of cells";
     properties := [
       prop "filepath" "string" "Path to Excel file";
       prop "sheet_name" "string" "Name of worksheet";
       prop "start_cell" "string" "Start cell of range";
       prop "end_cell" "string" "End cell of range";
       prop "bold" "boolean" "Apply bold formatting";
       prop "italic" "boolean" "Apply italic formatting";
       prop "font_size" "integer" "Font size";
       prop "font_color" "string" "Font color";
       prop "bg_color" "string" "Background color"];
     required := ["filepath"; "sheet_name"; "start_cell"] |};
  {| tool_name := "read_data_from_excel";
     tool_description := "Read data from Excel worksheet";
     properties := [
       prop "filepath" "string" "Path to Excel file";
       prop "sheet_name" "string" "Name of worksheet";
       prop "start_cell" "string" "Start cell of range (default: A1)";
       prop "end_cell" "string" "End cell of range";
       prop "preview_only" "boolean" "Only show preview of data"];
     required := ["filepath"; "sheet_name"] |};
  {| tool_name := "write_data_to_excel";
     tool_description := "Write data to Excel worksheet";
     properties := [
       prop "filepath" "string" "Path to Excel file";
       prop "sheet_name" "string" "Name of worksheet";
       prop "data" "array" "List of rows to write";
       prop "start_cell" "string" "Start cell (default: A1)";
       prop "write_headers" "boolean" "Write headers"];
     required := ["filepath"; "sheet_name"; "data"] |};
  {| tool_name := "create_workbook";
     tool_description := "Create new Excel workbook";
     properties := [
       prop "filepath" "string" "Path to Excel file"];
     required := ["filepath"] |};
  {| tool_name := "create_worksheet";
     tool_description := "Create new worksheet in workbook";
     properties := [
       prop "filepath" "string" "Path to Excel file";
       prop "sheet_name" "string" "Name of new worksheet"];
     required := ["filepath"; "sheet_name"] |};
  {| tool_name := "create_chart";
     tool_description := "Create chart in worksheet";
     properties := [
       prop "filepath" "string" "Path to Excel file";
       prop "sheet_name" "string" "Name of worksheet";
       prop "data_range" "string" "Data range for chart";
       prop "chart_type" "string" "Type of chart";
       prop "target_cell" "string" "Target cell for chart";
       prop "title" "string" "Chart title";
       prop "x_axis" "string" "X-axis label";
       prop "y_axis" "string" "Y-axis label"];
     required := ["filepath"; "sheet_name"; "data_range"; "chart_type"; "target_cell"] |};
  {| tool_name := "create_pivot_table";
     tool_description := "Create pivot table in worksheet";
     properties := [
       prop "filepath" "string" "Path to Excel file";
       prop "sheet_name" "string" "Name of worksheet";
       prop "data_range" "string" "Data range for pivot table";
       prop "rows" "array" "Row fields";
       prop "values" "array" "Value fields";
       prop "columns" "array" "Column fields";
       prop "agg_func" "string" "Aggregation function"];
     required := ["filepath"; "sheet_name"; "data_range"; "rows"; "values"] |};
  {| tool_name := "copy_worksheet";
     tool_description := "Copy worksheet within workbook";
     properties := [
       prop "filepath" "string" "Path to Excel file";
       prop "source_sheet" "string" "Source worksheet name";
       prop "target_sheet" "string" "Target worksheet name"];
     required := ["filepath"; "source_sheet"; "target_sheet"] |};
  {| tool_name := "delete_worksheet";
     tool_description := "Delete worksheet from workbook";
     properties := [
       prop "filepath" "string" "Path to Excel file";
       prop "sheet_name" "string" "Name of worksheet to delete"];
     required := ["filepath"; "sheet_name"] |};
  {| tool_name := "rename_worksheet";
     tool_description := "Rename worksheet in workbook";
     properties := [
       prop "filepath" "string" "Path to Excel file";
       prop "old_name" "string" "Current worksheet name";
       prop "new_name" "string" "New worksheet name"];
     required := ["filepath"; "old_name"; "new_name"] |};
  {| tool_name := "get_workbook_metadata";
     tool_description := "Get metadata about workbook including sheets, ranges, etc.";
     properties := [
       prop "filepath" "string" "Path to Excel file";
       prop "include_ranges" "boolean" "Include named ranges"];
     required := ["filepath"] |};
  {| tool_name := "merge_cells";
     tool_description := "Merge a range of cells";
     properties := [
       prop "filepath" "string" "Path to Excel file";
       prop "sheet_name" "string" "Name of worksheet";
       prop "start_cell" "string" "Start cell of range";
       prop "end_cell" "string" "End cell of range"];
     required := ["filepath"; "sheet_name"; "start_cell"; "end_cell"] |};
  {| tool_name := "unmerge_cells";
     tool_description := "Unmerge a range of cells";
     properties := [
       prop "filepath" "string" "Path to Excel file";
       prop "sheet_name" "string" "Name of worksheet";
       prop "start_cell" "string" "Start cell of range";
       prop "end_cell" "string" "End cell of range"];
     required := ["filepath"; "sheet_name"; "start_cell"; "end_cell"] |};
  {| tool_name := "copy_range";
     tool_description := "Copy a range of cells to another location";
     properties := [
       prop "filepath" "string" "Path to Excel file";
       prop "sheet_name" "string" "Source worksheet name";
       prop "source_start" "string" "Source start cell";
       prop "source_end" "string" "Source end cell";
       prop "target_start" "string" "Target start cell";
       prop "target_sheet" "string" "Target worksheet name"];
     required := ["filepath"; "sheet_name"; "source_start"; "source_end"; "target_start"] |};
  {| tool_name := "delete_range";
     tool_description := "Delete a range of cells and shift remaining cells";
     properties := [
       prop "filepath" "string" "Path to Excel file";
       prop "sheet_name" "string" "Name of worksheet";
       prop "start_cell" "string" "Start cell of range";
       prop "end_cell" "string" "End cell of range";
       prop "shift_direction" "string" "Direction to shift cells (up/left)"];
     required := ["filepath"; "sheet_name"; "start_cell"; "end_cell"] |};
  {| tool_name := "validate_excel_range";
     tool_description := "Validate if a range exists and is properly formatted";
     properties := [
       prop "filepath" "string" "Path to Excel file";
       prop "sheet_name" "string" "Name of worksheet";
       prop "start_cell" "string" "Start cell of range";
       prop "end_cell" "string" "End cell of range"];
     required := ["filepath"; "sheet_name"; "start_cell"] |}
].

(** ** The dispatcher *)

(** The branches of the [if]/[elif] chain of [call_tool], in its order. *)
Inductive branch : Type :=
| b_apply_formula | b_validate_formula_syntax | b_format_range
| b_read_data_from_excel | b_write_data_to_excel | b_create_workbook
| b_create_worksheet | b_create_chart | b_create_pivot_table
| b_copy_worksheet | b_delete_worksheet | b_rename_worksheet
| b_get_workbook_metadata | b_merge_cells | b_unmerge_cells
| b_copy_range | b_delete_range | b_validate_excel_range.

#[global] Instance branch_eq_dec : EqDecision branch.
Proof. solve_decision. Defined.

Definition all_branches : list branch :=
  [b_apply_formula; b_validate_formula_syntax; b_format_range;
   b_read_data_from_excel; b_write_data_to_excel; b_create_workbook;
   b_create_worksheet; b_create_chart; b_create_pivot_table;
   b_copy_worksheet; b_delete_worksheet; b_rename_worksheet;
   b_get_workbook_metadata; b_merge_cells; b_unmerge_cells;
   b_copy_range; b_delete_range; b_validate_excel_range].

(** The chain of comparisons [name == "..."]: the branch that a tool name
    selects, [None] for the final [else]. *)
Definition route (name : string) : option branch :=
  if String.eqb name "apply_formula" then Some b_apply_formula
  else if String.eqb name "validate_formula_syntax" then Some b_validate_formula_syntax
  else if String.eqb name "format_range" then Some b_format_range
  else if String.eqb name "read_data_from_excel" then Some b_read_data_from_excel
  else if String.eqb name "write_data_to_excel" then Some b_write_data_to_excel
  else if String.eqb name "create_workbook" then Some b_create_workbook
  else if String.eqb name "create_worksheet" then Some b_create_worksheet
  else if String.eqb name "create_chart" then Some b_create_chart
  else if String.eqb name "create_pivot_table" then Some b_create_pivot_table
  else if String.eqb name "copy_worksheet" then Some b_copy_worksheet
  else if String.eqb name "delete_worksheet" then Some b_delete_worksheet
  else if String.eqb name "rename_worksheet" then Some b_rename_worksheet
  else if String.eqb name "get_workbook_metadata" then Some b_get_workbook_metadata
  else if String.eqb name "merge_cells" then Some b_merge_cells
  else if String.eqb name "unmerge_cells" then Some b_unmerge_cells
  else if String.eqb name "copy_range" then Some b_copy_range
  else if String.eqb name "delete_range" then Some b_delete_range
  else if String.eqb name "validate_excel_range" then Some b_validate_excel_range
  else None.

(** The classes named in the [except] clause of the [try] that wraps the
    backend call of each branch.  The branch of [read_data_from_excel] has
    [except Exception]: it is not a list of classes and is handled apart. *)
Definition except_classes (b : branch) : list exc_class :=
  match b with
  | b_apply_formula | b_validate_formula_syntax => [ValidationError; CalculationError]
  | b_format_range => [ValidationError; FormattingError]
  | b_read_data_from_excel => []
  | b_write_data_to_excel => [ValidationError; DataError]
  | b_create_workbook => [WorkbookError]
  | b_create_worksheet => [ValidationError; WorkbookError]
  | b_create_chart => [ValidationError; ChartError]
  | b_create_pivot_table => [ValidationError; PivotError]
  | b_copy_worksheet | b_delete_worksheet | b_rename_worksheet
  | b_merge_cells | b_unmerge_cells | b_copy_range | b_delete_range =>
      [ValidationError; SheetError]
  | b_get_workbook_metadata => [WorkbookError]
  | b_validate_excel_range => [ValidationError]
  end.

(** The prefix under which [call_tool] renders an exception [e] that the
    backend raises in branch [b]: that of the [except] clause at the call
    site when the clause applies, that of the outer [except Exception]
    otherwise. *)
Definition error_prefix (b : branch) (e : exn) : string :=
  match b with
  | b_read_data_from_excel => "Error reading data: "
  | _ =>
      if bool_decide (exn_class e ∈ except_classes b) then "Error: "
      else "Error executing tool: "
  end.

(** What the branch [b] itself makes of an exception [e] of the backend:
    the text of its [except] clause, or the exception again when the clause
    does not apply. *)
Definition branch_outcome (b : branch) (e : exn) : res (list TextContent) :=
  match b with
  | b_read_data_from_excel => Ok [text_item ("Error reading data: " ++ exn_msg e)]
  | _ =>
      if bool_decide (exn_class e ∈ except_classes b)
      then Ok [text_item ("Error: " ++ exn_msg e)]
      else Raise e
  end.

(** [arguments.get(key, default)] *)
Definition arg_get (arguments : gmap string PyVal) (key : string) (default : PyVal) : PyVal :=
  match arguments !! key with
  | Some v => v
  | None => default
  end.

(** The argument bag holds a value for [key] that counts as given: one
    that Python takes for true, and a [str] when it is the file path. *)
Definition populated (arguments : gmap string PyVal) (key : string) : Prop :=
  exists v, arguments !! key = Some v /\ truthy v = true /\
            (key = "filepath" -> exists s, v = PyStr s).

(** The argument bag gives no value for [key]: the key is absent, or its
    value is one that Python takes for false. *)
Definition omitted_or_empty (arguments : gmap string PyVal) (key : string) : Prop :=
  arguments !! key = None \/ exists v, arguments !! key = Some v /\ truthy v = false.

(** [all([v1, ..., vn])] *)
Definition py_all (vs : list PyVal) : bool := forallb truthy vs.

(** [a or b] *)
Definition py_or (a b : PyVal) : PyVal := if truthy a then a else b.

Section Server.

(** The state of the file system, and what the backend does on it. *)
Context {World : Type}.
Variable backend : backend_call -> World -> outcome * World.

(** The module constant [EXCEL_FILES_PATH]. *)
Variable EXCEL_FILES_PATH : string.

(** [str(v)] for a value that is not a [str], and [str(e)] for the
    exceptions of the interpreter: both are the interpreter's business. *)
Variable py_repr : PyVal -> string.
Variable fault_msg : fault -> string.

(** *** A state and exception monad *)

(** The state threads the file system and the log of the backend calls
    made so far, most recent first. *)
Record state : Type := { world : World; log : list event }.

Definition M (A : Type) : Type := state -> res A * state.

Definition ret {A} (a : A) : M A := fun st => (Ok a, st).

Definition raise {A} (e : exn) : M A := fun st => (Raise e, st).

Definition bind {A B} (m : M A) (k : A -> M B) : M B :=
  fun st =>
    match m st with
    | (Ok a, st') => k a st'
    | (Raise e, st') => (Raise e, st')
    end.

Notation "x <- m ;; k" := (bind m (fun x => k))
  (at level 100, m at next level, right associativity).

(** [try: body except (c1, ..., cn) as e: handler] *)
Definition try_except {A} (classes : list exc_class)
    (body : M A) (handler : exn -> M A) : M A :=
  fun st =>
    match body st with
    | (Ok a, st') => (Ok a, st')
    | (Raise e, st') =>
        if bool_decide (exn_class e ∈ classes) then handler e st'
        else (Raise e, st')
    end.

(** [try: body except Exception as e: handler] *)
Definition try_except_Exception {A} (body : M A) (handler : exn -> M A) : M A :=
  fun st =>
    match body st with
    | (Ok a, st') => (Ok a, st')
    | (Raise e, st') => handler e st'
    end.

(** A call of a backend function. *)
Definition call (c : backend_call) : M PyVal :=
  fun st =>
    let (o, w') := backend c (world st) in
    let st' := {| world := w'; log := (c, o) :: log st |} in
    match o with
    | Returned v => (Ok v, st')
    | Raised e => (Raise e, st')
    end.

Definition fault_exn (f : fault) : exn :=
  {| exn_class := fault_class f; exn_msg := fault_msg f |}.

(** *** Python operations used by the handlers *)

(** [str(v)], also what an f-string puts for [{v}]. *)
Definition py_str (v : PyVal) : string :=
  match v with
  | PyStr s => s
  | _ => py_repr v
  end.

(** [v[key]] for a string [key]. *)
Definition getitem (v : PyVal) (key : string) : M PyVal :=
  match v with
  | PyDict d =>
      match dict_lookup key d with
      | Some x => ret x
      | None => raise (fault_exn (MissingKey key))
      end
  | _ => raise (fault_exn (NotSubscriptable v))
  end.

(** [[row for row in v]] *)
Definition py_iter (v : PyVal) : M (list PyVal) :=
  match v with
  | PyList l => ret l
  | PyStr s => ret (map PyStr (chars s))
  | PyDict d => ret (map (fun kv => PyStr (fst kv)) d)
  | _ => raise (fault_exn (NotIterable v))
  end.

(** ["\n".join(l)] *)
Definition join_lines (l : list string) : string :=
  String.concat (String (ascii_of_nat 10) EmptyString) l.

(** [[TextContent(type="text", text=v)]]: the model validates that
    [text] is a [str]. *)
Definition text_result (v : PyVal) : M (list TextContent) :=
  match v with
  | PyStr s => ret [text_item s]
  | _ => raise (fault_exn (TextNotStr v))
  end.

(** [get_excel_path(v)] for an argument of any type: [os.path.isabs]
    raises [TypeError] on what is not a [str]. *)
Definition get_excel_path_arg (v : PyVal) : M string :=
  match v with
  | PyStr s => ret (get_excel_path EXCEL_FILES_PATH s)
  | _ => raise (fault_exn (FspathOf v))
  end.

Definition missing_required : M (list TextContent) :=
  text_result (PyStr "Error: Missing required parameters").

Definition missing_filepath : M (list TextContent) :=
  text_result (PyStr "Error: Missing filepath parameter").

(** [except (...) as e: return [TextContent(type="text", text=f"Error: {str(e)}")]] *)
Definition error_result (e : exn) : M (list TextContent) :=
  text_result (PyStr ("Error: " ++ exn_msg e)).

(** *** The eighteen branches of [call_tool] *)

Definition tool_apply_formula (arguments : gmap string PyVal) : M (list TextContent) :=
  filepath <- get_excel_path_arg (arg_get arguments "filepath" (PyStr ""));;
  let sheet_name := arg_get arguments "sheet_name" (PyStr "") in
  let cell := arg_get arguments "cell" (PyStr "") in
  let formula := arg_get arguments "formula" (PyStr "") in
  if negb (py_all [PyStr filepath; sheet_name; cell; formula]) then
    missing_required
  else
    try_except [ValidationError; CalculationError]
      (validation <- call (validate_formula_impl filepath sheet_name cell formula);;
       if is_dict_with "error" validation then
         err <- getitem validation "error";;
         text_result (PyStr ("Error: " ++ py_str err))
       else
         result <- call (apply_formula_impl filepath sheet_name cell formula);;
         message <- getitem result "message";;
         text_result message)
      error_result.

Definition tool_validate_formula_syntax (arguments : gmap string PyVal) : M (list TextContent) :=
  filepath <- get_excel_path_arg (arg_get arguments "filepath" (PyStr ""));;
  let sheet_name := arg_get arguments "sheet_name" (PyStr "") in
  let cell := arg_get arguments "cell" (PyStr "") in
  let formula := arg_get arguments "formula" (PyStr "") in
  if negb (py_all [PyStr filepath; sheet_name; cell; formula]) then
    missing_required
  else
    try_except [ValidationError; CalculationError]
      (result <- call (validate_formula_impl filepath sheet_name cell formula);;
       message <- getitem result "message";;
       text_result message)
      error_result.

Definition tool_format_range (arguments : gmap string PyVal) : M (list TextContent) :=
  filepath <- get_excel_path_arg (arg_get arguments "filepath" (PyStr ""));;
  let sheet_name := arg_get arguments "sheet_name" (PyStr "") in
  let start_cell := arg_get arguments "start_cell" (PyStr "") in
  if negb (py_all [PyStr filepath; sheet_name; start_cell]) then
    missing_required
  else
    try_except [ValidationError; FormattingError]
      (result <- call (format_range_func
         {| fr_filepath := filepath;
            fr_sheet_name := sheet_name;
            fr_start_cell := start_cell;
            fr_end_cell := arg_get arguments "end_cell" PyNone;
            fr_bold := arg_get arguments "bold" (PyBool false);
            fr_italic := arg_get arguments "italic" (PyBool false);
            fr_underline := arg_get arguments "underline" (PyBool false);
            fr_font_size := arg_get arguments "font_size" PyNone;
            fr_font_color := arg_get arguments "font_color" PyNone;
            fr_bg_color := arg_get arguments "bg_color" PyNone;
            fr_border_style := arg_get arguments "border_style" PyNone;
            fr_border_color := arg_get arguments "border_color" PyNone;
            fr_number_format := arg_get arguments "number_format" PyNone;
            fr_alignment := arg_get arguments "alignment" PyNone;
            fr_wrap_text := arg_get arguments "wrap_text" (PyBool false);
            fr_merge_cells := arg_get arguments "merge_cells" (PyBool false);
            fr_protection := arg_get arguments "protection" PyNone;
            fr_conditional_format := arg_get arguments "conditional_format" PyNone |});;
       text_result (PyStr "Range formatted successfully"))
      error_result.

Definition tool_read_data_from_excel (arguments : gmap string PyVal) : M (list TextContent) :=
  filepath <- get_excel_path_arg (arg_get arguments "filepath" (PyStr ""));;
  let sheet_name := arg_get arguments "sheet_name" (PyStr "") in
  let start_cell := arg_get arguments "start_cell" (PyStr "A1") in
  let end_cell := arg_get arguments "end_cell" PyNone in
  let preview_only := arg_get arguments "preview_only" (PyBool false) in
  if negb (py_all [PyStr filepath; sheet_name]) then
    missing_required
  else
    try_except_Exception
      (result <- call (read_excel_range filepath sheet_name start_cell end_cell preview_only);;
       if negb (truthy result) then
         text_result (PyStr "No data found in specified range")
       else
         rows <- py_iter result;;
         let data_str := join_lines (map py_str rows) in
         text_result (PyStr data_str))
      (fun e => text_result (PyStr ("Error reading data: " ++ exn_msg e))).

Definition tool_write_data_to_excel (arguments : gmap string PyVal) : M (list TextContent) :=
  filepath <- get_excel_path_arg (arg_get arguments "filepath" (PyStr ""));;
  let sheet_name := arg_get arguments "sheet_name" (PyStr "") in
  let data := arg_get arguments "data" (PyList []) in
  let start_cell := arg_get arguments "start_cell" (PyStr "A1") in
  let write_headers := arg_get arguments "write_headers" (PyBool true) in
  if negb (py_all [PyStr filepath; sheet_name; data]) then
    missing_required
  else
    try_except [ValidationError; DataError]
      (result <- call (write_data filepath sheet_name data start_cell write_headers);;
       message <- getitem result "message";;
       text_result message)
      error_result.

Definition tool_create_workbook (arguments : gmap string PyVal) : M (list TextContent) :=
  filepath <- get_excel_path_arg (arg_get arguments "filepath" (PyStr ""));;
  if negb (truthy (PyStr filepath)) then
    missing_filepath
  else
    try_except [WorkbookError]
      (result <- call (create_workbook_impl filepath);;
       text_result (PyStr ("Created workbook at " ++ filepath)))
      error_result.

Definition tool_create_worksheet (arguments : gmap string PyVal) : M (list TextContent) :=
  filepath <- get_excel_path_arg (arg_get arguments "filepath" (PyStr ""));;
  let sheet_name := arg_get arguments "sheet_name" (PyStr "") in
  if negb (py_all [PyStr filepath; sheet_name]) then
    missing_required
  else
    try_except [ValidationError; WorkbookError]
      (result <- call (create_worksheet_impl filepath sheet_name);;
       message <- getitem result "message";;
       text_result message)
      error_result.

Definition tool_create_chart (arguments : gmap string PyVal) : M (list TextContent) :=
  filepath <- get_excel_path_arg (arg_get arguments "filepath" (PyStr ""));;
  let sheet_name := arg_get arguments "sheet_name" (PyStr "") in
  let data_range := arg_get arguments "data_range" (PyStr "") in
  let chart_type := arg_get arguments "chart_type" (PyStr "") in
  let target_cell := arg_get arguments "target_cell" (PyStr "") in
  let title := arg_get arguments "title" (PyStr "") in
  let x_axis := arg_get arguments "x_axis" (PyStr "") in
  let y_axis := arg_get arguments "y_axis" (PyStr "") in
  if negb (py_all [PyStr filepath; sheet_name; data_range; chart_type; target_cell]) then
    missing_required
  else
    try_except [ValidationError; ChartError]
      (result <- call (create_chart_impl filepath sheet_name data_range
                         chart_type target_cell title x_axis y_axis);;
       message <- getitem result "message";;
       text_result message)
      error_result.

Definition tool_create_pivot_table (arguments : gmap string PyVal) : M (list TextContent) :=
  filepath <- get_excel_path_arg (arg_get arguments "filepath" (PyStr ""));;
  let sheet_name := arg_get arguments "sheet_name" (PyStr "") in
  let data_range := arg_get arguments "data_range" (PyStr "") in
  let rows := arg_get arguments "rows" (PyList []) in
  let values := arg_get arguments "values" (PyList []) in
  let columns := arg_get arguments "columns" (PyList []) in
  let agg_func := arg_get arguments "agg_func" (PyStr "mean") in
  if negb (py_all [PyStr filepath; sheet_name; data_range; rows; values]) then
    missing_required
  else
    try_except [ValidationError; PivotError]
      (result <- call (create_pivot_table_impl filepath sheet_name data_range
                         rows values (py_or columns (PyList [])) agg_func);;
       message <- getitem result "message";;
       text_result message)
      error_result.

Definition tool_copy_worksheet (arguments : gmap string PyVal) : M (list TextContent) :=
  filepath <- get_excel_path_arg (arg_get arguments "filepath" (PyStr ""));;
  let source_sheet := arg_get arguments "source_sheet" (PyStr "") in
  let target_sheet := arg_get arguments "target_sheet" (PyStr "") in
  if negb (py_all [PyStr filepath; source_sheet; target_sheet]) then
    missing_required
  else
    try_except [ValidationError; SheetError]
      (result <- call (copy_sheet filepath source_sheet target_sheet);;
       message <- getitem result "message";;
       text_result message)
      error_result.

Definition tool_delete_worksheet (arguments : gmap string PyVal) : M (list TextContent) :=
  filepath <- get_excel_path_arg (arg_get arguments "filepath" (PyStr ""));;
  let sheet_name := arg_get arguments "sheet_name" (PyStr "") in
  if negb (py_all [PyStr filepath; sheet_name]) then
    missing_required
  else
    try_except [ValidationError; SheetError]
      (result <- call (delete_sheet filepath sheet_name);;
       message <- getitem result "message";;
       text_result message)
      error_result.

Definition tool_rename_worksheet (arguments : gmap string PyVal) : M (list TextContent) :=
  filepath <- get_excel_path_arg (arg_get arguments "filepath" (PyStr ""));;
  let old_name := arg_get arguments "old_name" (PyStr "") in
  let new_name := arg_get arguments "new_name" (PyStr "") in
  if negb (py_all [PyStr filepath; old_name; new_name]) then
    missing_required
  else
    try_except [ValidationError; SheetError]
      (result <- call (rename_sheet filepath old_name new_name);;
       message <- getitem result "message";;
       text_result message)
      error_result.

Definition tool_get_workbook_metadata (arguments : gmap string PyVal) : M (list TextContent) :=
  filepath <- get_excel_path_arg (arg_get arguments "filepath" (PyStr ""));;
  let include_ranges := arg_get arguments "include_ranges" (PyBool false) in
  if negb (truthy (PyStr filepath)) then
    missing_filepath
  else
    try_except [WorkbookError]
      (result <- call (get_workbook_info filepath include_ranges);;
       text_result (PyStr (py_str result)))
      error_result.

Definition tool_merge_cells (arguments : gmap string PyVal) : M (list TextContent) :=
  filepath <- get_excel_path_arg (arg_get arguments "filepath" (PyStr ""));;
  let sheet_name := arg_get arguments "sheet_name" (PyStr "") in
  let start_cell := arg_get arguments "start_cell" (PyStr "") in
  let end_cell := arg_get arguments "end_cell" (PyStr "") in
  if negb (py_all [PyStr filepath; sheet_name; start_cell; end_cell]) then
    missing_required
  else
    try_except [ValidationError; SheetError]
      (result <- call (merge_range filepath sheet_name start_cell end_cell);;
       message <- getitem result "message";;
       text_result message)
      error_result.

Definition tool_unmerge_cells (arguments : gmap string PyVal) : M (list TextContent) :=
  filepath <- get_excel_path_arg (arg_get arguments "filepath" (PyStr ""));;
  let sheet_name := arg_get arguments "sheet_name" (PyStr "") in
  let start_cell := arg_get arguments "start_cell" (PyStr "") in
  let end_cell := arg_get arguments "end_cell" (PyStr "") in
  if negb (py_all [PyStr filepath; sheet_name; start_cell; end_cell]) then
    missing_required
  else
    try_except [ValidationError; SheetError]
      (result <- call (unmerge_range filepath sheet_name start_cell end_cell);;
       message <- getitem result "message";;
       text_result message)
      error_result.

Definition tool_copy_range (arguments : gmap string PyVal) : M (list TextContent) :=
  filepath <- get_excel_path_arg (arg_get arguments "filepath" (PyStr ""));;
  let sheet_name := arg_get arguments "sheet_name" (PyStr "") in
  let source_start := arg_get arguments "source_start" (PyStr "") in
  let source_end := arg_get arguments "source_end" (PyStr "") in
  let target_start := arg_get arguments "target_start" (PyStr "") in
  let target_sheet := arg_get arguments "target_sheet" PyNone in
  if negb (py_all [PyStr filepath; sheet_name; source_start; source_end; target_start]) then
    missing_required
  else
    try_except [ValidationError; SheetError]
      (result <- call (copy_range_operation filepath sheet_name source_start
                         source_end target_start target_sheet);;
       message <- getitem result "message";;
       text_result message)
      error_result.

Definition tool_delete_range (arguments : gmap string PyVal) : M (list TextContent) :=
  filepath <- get_excel_path_arg (arg_get arguments "filepath" (PyStr ""));;
  let sheet_name := arg_get arguments "sheet_name" (PyStr "") in
  let start_cell := arg_get arguments "start_cell" (PyStr "") in
  let end_cell := arg_get arguments "end_cell" (PyStr "") in
  let shift_direction := arg_get arguments "shift_direction" (PyStr "up") in
  if negb (py_all [PyStr filepath; sheet_name; start_cell; end_cell]) then
    missing_required
  else
    try_except [ValidationError; SheetError]
      (result <- call (delete_range_operation filepath sheet_name start_cell
                         end_cell shift_direction);;
       message <- getitem result "message";;
       text_result message)
      error_result.

Definition tool_validate_excel_range (arguments : gmap string PyVal) : M (list TextContent) :=
  filepath <- get_excel_path_arg (arg_get arguments "filepath" (PyStr ""));;
  let sheet_name := arg_get arguments "sheet_name" (PyStr "") in
  let start_cell := arg_get arguments "start_cell" (PyStr "") in
  let end_cell := arg_get arguments "end_cell" PyNone in
  if negb (py_all [PyStr filepath; sheet_name; start_cell]) then
    missing_required
  else
    try_except [ValidationError]
      (let range_str :=
         if negb (truthy end_cell) then start_cell
         else PyStr (py_str start_cell ++ ":" ++ py_str end_cell) in
       result <- call (validate_range_impl filepath sheet_name range_str);;
       message <- getitem result "message";;
       text_result message)
      error_result.

(** The body of the branch [b]. *)
Definition run_branch (b : branch) : gmap string PyVal -> M (list TextContent) :=
  match b with
  | b_apply_formula => tool_apply_formula
  | b_validate_formula_syntax => tool_validate_formula_syntax
  | b_format_range => tool_format_range
  | b_read_data_from_excel => tool_read_data_from_excel
  | b_write_data_to_excel => tool_write_data_to_excel
  | b_create_workbook => tool_create_workbook
  | b_create_worksheet => tool_create_worksheet
  | b_create_chart => tool_create_chart
  | b_create_pivot_table => tool_create_pivot_table
  | b_copy_worksheet => tool_copy_worksheet
  | b_delete_worksheet => tool_delete_worksheet
  | b_rename_worksheet => tool_rename_worksheet
  | b_get_workbook_metadata => tool_get_workbook_metadata
  | b_merge_cells => tool_merge_cells
  | b_unmerge_cells => tool_unmerge_cells
  | b_copy_range => tool_copy_range
  | b_delete_range => tool_delete_range
  | b_validate_excel_range => tool_validate_excel_range
  end.

(** The final [else] of the chain. *)
Definition unknown_tool (name : string) : M (list TextContent) :=
  text_result (PyStr ("Unknown tool: " ++ name)).

(** [call_tool(name, arguments)]: the chain of branches inside the outer
    [try ... except Exception]. *)
Definition call_tool (name : string) (arguments : gmap string PyVal)
  : M (list TextContent) :=
  try_except_Exception
    (match route name with
     | Some b => run_branch b arguments
     | None => unknown_tool name
     end)
    (fun e => text_result (PyStr ("Error executing tool: " ++ exn_msg e))).

(** Running a handler from the file system [w]: what it returns or raises,
    the file system afterwards, and the backend calls in the order they
    were made. *)
Definition run {A} (m : M A) (w : World) : res A * World * list event :=
  let (r, st) := m {| world := w; log := [] |} in
  (r, world st, rev (log st)).

Definition result_of {A} (x : res A * World * list event) : res A := fst (fst x).
Definition calls_of {A} (x : res A * World * list event) : list backend_call :=
  map fst (snd x).
Definition events_of {A} (x : res A * World * list event) : list event := snd x.

(** A computation only adds to the log, and when the backend raises [e] in
    it, its outcome is [f e]. *)
Definition traced {A} (f : exn -> res A) (m : M A) : Prop :=
  forall st, exists new,
    log (snd (m st)) = (new ++ log st)%list /\
    forall c e, In (c, Raised e) new -> fst (m st) = f e.

(** A computation that calls no backend function: it leaves the state as
    it found it. *)
Definition silent {A} (m : M A) : Prop := forall st, snd (m st) = st.


End Server.

(** ** Reading a resource *)

(** The worker that [run_in_executor] starts: the value its function
    returns and the time, in milliseconds after its start, at which it
    returns. *)
Record job : Type := { job_value : PyVal; job_done_at : N }.

(** What [await asyncio.wait_for(fut, timeout)] gives. *)
Inductive awaited : Type :=
| Completed (v : PyVal)
| TimedOut.

(** [asyncio.wait_for(fut, timeout)]: the result of the worker if it is
    there before the timeout, [asyncio.TimeoutError] at the timeout
    otherwise; the second component is the time at which the [await]
    resumes.  The worker is a thread: it is not stopped. *)
Definition wait_for (j : job) (timeout : N) : awaited * N :=
  if (job_done_at j <? timeout)%N then (Completed (job_value j), job_done_at j)
  else (TimedOut, timeout).

(** Leaving [with ThreadPoolExecutor() as executor:], by [return] as by any
    other way, runs [executor.__exit__], which is [shutdown(wait=True)]: it
    joins the worker threads, so control leaves the block when the worker
    has returned, and not before. *)
Definition executor_exit (j : job) (now : N) : N := N.max now (job_done_at j).

(** [timeout=15.0], in milliseconds. *)
Definition timeout_ms : N := 15000.

Section Resource.

Context {World : Type}.
Variable backend : backend_call -> World -> outcome * World.
Variable EXCEL_FILES_PATH : string.
Variable py_repr : PyVal -> string.

(** [urllib.parse.unquote] and [os.path.exists]. *)
Variable unquote : string -> string.
Variable path_exists : string -> World -> bool.

(** The time, in milliseconds, that a backend call takes. *)
Variable duration : backend_call -> World -> N.

(** The local function [get_info] of [read_resource]. *)
Definition get_info (file_path : string) (w : World) : PyVal :=
  match fst (backend (get_workbook_info file_path (PyBool true)) w) with
  | Returned v => v
  | Raised e => PyStr ("Error reading workbook: " ++ exn_msg e)
  end.

(** The body of the outer [try] of [read_resource]: the text returned and
    the time at which it is returned, counted from the start of the
    worker (everything but the worker is taken to cost no time). *)
Definition read_resource_body (uri : string) (w : World) : res (string * N) :=
  if negb (startswith uri "excel://") then
    Raise {| exn_class := ValueError; exn_msg := "Invalid URI scheme: " ++ uri |}
  else
    let encoded_file := String.substring 8 (String.length uri - 8) uri in
    let file := unquote encoded_file in
    let file_path := get_excel_path EXCEL_FILES_PATH file in
    if negb (path_exists file_path w) then
      Ok ("Error: File not found: " ++ file, 0%N)
    else
      let j := {| job_value := get_info file_path w;
                  job_done_at :=
                    duration (get_workbook_info file_path (PyBool true)) w |} in
      let (r, now) := wait_for j timeout_ms in
      let answer :=
        match r with
        | Completed result => py_str py_repr result
        | TimedOut => "Error: Operation timed out while reading Excel file"
        end in
      Ok (answer, executor_exit j now).

(** [read_resource(uri)] *)
Definition read_resource (uri : string) (w : World) : string * N :=
  match read_resource_body uri w with
  | Ok r => r
  | Raise e => ("Error reading resource: " ++ exn_msg e, 0%N)
  end.

End Resource.

(** ** Listing the resources *)

(** [s.endswith(suffix)] *)
Definition endswith (s suffix : string) : bool :=
  (String.length suffix <=? String.length s)%nat &&
  String.eqb
    (String.substring (String.length s - String.length suffix) (String.length suffix) s)
    suffix.

(** [file.endswith(('.xlsx', '.xls', '.xlsm'))] *)
Definition has_excel_extension (file : string) : bool :=
  existsb (endswith file) [".xlsx"; ".xls"; ".xlsm"].

(** [mcp.types.Resource], with the four fields that [list_resources] sets. *)
Record Resource : Type := {
  r_uri : string;
  r_name : string;
  r_mimeType : string;
  r_description : string
}.

Definition excel_mime_type : string :=
  "application/vnd.openxmlformats-officedocument.spreadsheetml.sheet".

Section Listing.

Context {World : Type}.
Variable EXCEL_FILES_PATH : string.

(** [os.listdir(path)]: the names in the directory, or the [OSError] it
    raises. *)
Variable listdir : string -> World -> res (list string).

(** [urllib.parse.quote], on the names that UTF-8 can encode. *)
Variable quote : string -> string.

(** The validation of the field [uri] by the model [Resource]: the text of
    the URL it keeps, or [None] when it rejects the string; and the message
    of the error it raises then. *)
Variable any_url : string -> option string.
Variable url_error : string -> string.

(** [Resource(uri=..., name=..., mimeType=..., description=...)] *)
Definition make_resource (uri name mimeType description : string) : res Resource :=
  match any_url uri with
  | Some u =>
      Ok {| r_uri := u; r_name := name; r_mimeType := mimeType;
            r_description := description |}
  | None => Raise {| exn_class := PydanticValidationError; exn_msg := url_error uri |}
  end.

(** The [for] loop of [list_resources]: [files] is the list built so far. *)
Fixpoint list_resources_loop (entries : list string) (files : list Resource)
  : res (list Resource) :=
  match entries with
  | [] => Ok files
  | file :: rest =>
      if has_excel_extension file then
        let encoded_file := quote file in
        match make_resource ("excel://" ++ encoded_file) file excel_mime_type
                ("Excel workbook: " ++ file) with
        | Ok r => list_resources_loop rest (files ++ [r])
        | Raise e => Raise e
        end
      else list_resources_loop rest files
  end.

(** [list_resources()]: any exception gives the empty list. *)
Definition list_resources (w : World) : list Resource :=
  match
    match listdir EXCEL_FILES_PATH w with
    | Ok entries => list_resources_loop entries []
    | Raise e => Raise e
    end
  with
  | Ok files => files
  | Raise _ => []
  end.

(** The resource [r] is the one that [list_resources] makes for the
    directory entry [file]. *)
Definition listed (file : string) (r : Resource) : Prop :=
  r_name r = file /\
  any_url ("excel://" ++ quote file) = Some (r_uri r) /\
  r_mimeType r = excel_mime_type /\
  r_description r = "Excel workbook: " ++ file.

End Listing.

(** ** Views of a backend call *)

(** The file path that a backend call receives, its first argument. *)
Definition call_filepath (c : backend_call) : string :=
  match c with
  | validate_formula_impl p _ _ _ | apply_formula_impl p _ _ _
  | read_excel_range p _ _ _ _ | write_data p _ _ _ _
  | create_workbook_impl p | create_worksheet_impl p _
  | create_chart_impl p _ _ _ _ _ _ _ | create_pivot_table_impl p _ _ _ _ _ _
  | copy_sheet p _ _ | delete_sheet p _ | rename_sheet p _ _
  | get_workbook_info p _ | merge_range p _ _ _ | unmerge_range p _ _ _
  | copy_range_operation p _ _ _ _ _ | delete_range_operation p _ _ _ _
  | validate_range_impl p _ _ => p
  | format_range_func kw => fr_filepath kw
  end.

(** The tools whose branch makes one backend call and answers with the
    entry "message" of what the call returns. *)
Definition message_tools : list string :=
  ["validate_formula_syntax"; "write_data_to_excel"; "create_worksheet";
   "create_chart"; "create_pivot_table"; "copy_worksheet"; "delete_worksheet";
   "rename_worksheet"; "merge_cells"; "unmerge_cells"; "copy_range";
   "delete_range"; "validate_excel_range"].

(** ** Sample environments

    Instances of the parameters, used to evaluate the dispatcher on
    concrete calls. *)

(** A backend over a file system without state that answers every call
    with [{"message": "ok"}]. *)
Definition ok_backend (c : backend_call) (w : unit) : outcome * unit :=
  (Returned (PyDict [("message", PyStr "ok")]), w).

(** A backend that raises [e] at every call. *)
Definition raising_backend (e : exn) (c : backend_call) (w : unit) : outcome * unit :=
  (Raised e, w).



Definition sample_repr (v : PyVal) : string := "<value>".
Definition sample_fault_msg (f : fault) : string := "<fault>".

(** A metadata fetch that takes twenty seconds. *)
Definition slow_duration (c : backend_call) (w : unit) : N := 20000.

Definition every_path_exists (p : string) (w : unit) : bool := true.
Definition no_path_exists (p : string) (w : unit) : bool := false.
Definition sample_unquote (s : string) : string := s.

(** Argument bags. *)
Definition sheet_args : gmap string PyVal :=
  <[ "filepath" := PyStr "book.xlsx" ]> {[ "sheet_name" := PyStr "Sheet1" ]}.

Definition range_args : gmap string PyVal :=
  <[ "start_cell" := PyStr "A1" ]> (<[ "end_cell" := PyStr "B2" ]> sheet_args).

Definition start_only_args : gmap string PyVal :=
  <[ "start_cell" := PyStr "A1" ]> sheet_args.

Definition write_args : gmap string PyVal :=
  <[ "data" := PyList [PyList [PyStr "h"]; PyList [PyInt 1]] ]> sheet_args.

Definition pivot_args : gmap string PyVal :=
  <[ "data_range" := PyStr "A1:C9" ]>
    (<[ "rows" := PyList [PyStr "region"] ]>
       (<[ "values" := PyList [PyStr "sales"] ]> sheet_args)).

(** The descriptor of [create_worksheet] in the catalog. *)
Definition create_worksheet_tool : Tool :=
  {| tool_name := "create_worksheet";
     tool_description := "Create new worksheet in workbook";
     properties := [
       prop "filepath" "string" "Path to Excel file";
       prop "sheet_name" "string" "Name of new worksheet"];
     required := ["filepath"; "sheet_name"] |}.

(** A directory listing, and the validation of a URL that keeps every
    string as it is. *)
Definition sample_listdir (path : string) (w : unit) : res (list string) :=
  Ok ["a.xlsx"; "b.txt"; "c.xlsm"; "old.xls"; "UPPER.XLSX"].

Definition failing_listdir (path : string) (w : unit) : res (list string) :=
  Raise {| exn_class := OtherException; exn_msg := "No such file or directory" |}.

Definition keep_url (u : string) : option string := Some u.

(** A validation that rejects the URL of [c.xlsm]. *)
Definition picky_url (u : string) : option string :=
  if String.eqb u "excel://c.xlsm" then None else Some u.

Definition sample_url_error (u : string) : string := "<url>".


(** A backend that answers with a payload that has no message. *)
Definition silent_backend (c : backend_call) (w : unit) : outcome * unit :=
  (Returned (PyDict [("status", PyStr "done")]), w).

(** A backend whose formula validation reports an error. *)
Definition rejecting_backend (c : backend_call) (w : unit) : outcome * unit :=
  (Returned (PyDict [("error", PyStr "bad formula")]), w).

(** A backend that answers with a number. *)
Definition number_backend (c : backend_call) (w : unit) : outcome * unit :=
  (Returned (PyInt 5), w).

Definition formula_args : gmap string PyVal :=
  <[ "cell" := PyStr "A1" ]> (<[ "formula" := PyStr "=SUM(B1:B2)" ]> sheet_args).

Definition empty_end_args : gmap string PyVal :=
  <[ "start_cell" := PyStr "A1" ]> (<[ "end_cell" := PyStr "" ]> sheet_args).

Definition numeric_path_args : gmap string PyVal :=
  <[ "filepath" := PyInt 7 ]> {[ "sheet_name" := PyStr "Sheet1" ]}.

(** A backend whose payload has a message that is a number. *)
Definition numeric_message_backend (c : backend_call) (w : unit) : outcome * unit :=
  (Returned (PyDict [("message", PyInt 5)]), w).

Definition sample_quote (s : string) : string := s.

(** * Properties *)

(** ** Values and paths at concrete inputs *)

Example truthy_nan : truthy (PyFloat PrimFloat.nan) = true.
Proof. reflexivity. Qed.

Example truthy_negzero : truthy (PyFloat PrimFloat.neg_zero) = false.
Proof. reflexivity. Qed.

Example get_excel_path_abs :
  get_excel_path default_root "/abs/path/x.xlsx" = "/abs/path/x.xlsx".
Proof. reflexivity. Qed.

Example get_excel_path_rel :
  get_excel_path default_root "x.xlsx" = "./excel_files/x.xlsx".
Proof. reflexivity. Qed.

Example get_excel_path_empty :
  get_excel_path default_root "" = "./excel_files/".
Proof. reflexivity. Qed.

Example get_excel_path_root_slash :
  get_excel_path "/data/" "x.xlsx" = "/data/x.xlsx".
Proof. reflexivity. Qed.

(** ** The path resolver *)

Lemma path_join_relative (a b : string) :
  isabs b = false ->
  path_join a b = if String.eqb a "" || endswith_sep a then a ++ b else a ++ "/" ++ b.
Proof. unfold path_join, isabs. by intros ->. Qed.

Lemma string_app_nil_inv (a b : string) : a ++ b = "" -> a = "".
Proof. by destruct a. Qed.

(** Whatever the file name, the resolved path is empty only if the root
    directory and the file name both are. *)
Lemma get_excel_path_nonempty (root filename : string) :
  root <> "" -> get_excel_path root filename <> "".
Proof.
  intros Hroot. unfold get_excel_path, path_join, isabs.
  destruct (startswith filename "/") eqn:Habs.
  - by destruct filename.
  - destruct (String.eqb root "" || endswith_sep root);
      intros H; by apply string_app_nil_inv in H.
Qed.

(** ** The router and the catalog *)

Lemma route_catalog_names :
  map route (map tool_name list_tools) = map Some all_branches.
Proof. reflexivity. Qed.


Lemma route_Some (name : string) (b : branch) :
  route name = Some b -> In name (map tool_name list_tools).
Proof.
  unfold route.
  repeat match goal with
  | |- context [String.eqb name ?s] =>
      destruct (String.eqb_spec name s) as [->|_]; [intros _; simpl; tauto|]
  end.
  discriminate.
Qed.

(** C5, as amended.  An absolute file name is returned unchanged.  A
    relative file name [f] is joined under the root directory the way
    [os.path.join] does it: the result is [root + "/" + f] when the root is
    not empty and does not end with a separator (the default
    [./excel_files] is such a root), [root + f] when the root already ends
    with a separator, and [f] alone under an empty root. *)
Theorem get_excel_path_resolves (root : string) :
  (forall p, isabs p = true -> get_excel_path root p = p) /\
  (forall f, isabs f = false -> root <> "" -> endswith_sep root = false ->
     get_excel_path root f = root ++ "/" ++ f) /\
  (forall f, isabs f = false -> endswith_sep root = true ->
     get_excel_path root f = root ++ f) /\
  (forall f, isabs f = false -> root = "" -> get_excel_path root f = f).
Proof.
  unfold get_excel_path. repeat split.
  - by intros p ->.
  - intros f Hrel Hroot Hsep. rewrite Hrel, (path_join_relative _ _ Hrel), Hsep.
    by destruct (String.eqb_spec root "").
  - intros f Hrel Hsep. rewrite Hrel, (path_join_relative _ _ Hrel), Hsep.
    by rewrite orb_true_r.
  - intros f Hrel ->. by rewrite Hrel, (path_join_relative _ _ Hrel).
Qed.

Lemma get_excel_path_resolves_witness :
  get_excel_path default_root "/abs/path/x.xlsx" = "/abs/path/x.xlsx" /\
  get_excel_path default_root "x.xlsx" = "./excel_files/x.xlsx" /\
  get_excel_path "/data/" "x.xlsx" = "/data/x.xlsx" /\
  get_excel_path "" "x.xlsx" = "x.xlsx".
Proof.
  split; [|split; [|split]].
  - apply (proj1 (get_excel_path_resolves default_root)). reflexivity.
  - apply (proj1 (proj2 (get_excel_path_resolves default_root)));
      [reflexivity | discriminate | reflexivity].
  - apply (proj1 (proj2 (proj2 (get_excel_path_resolves "/data/")))); reflexivity.
  - apply (proj2 (proj2 (proj2 (get_excel_path_resolves "")))); reflexivity.
Defined.

(** C5 as stated fails under a root directory that ends with a separator:
    with [EXCEL_FILES_PATH = "/data/"] the relative name [x.xlsx] resolves
    to [/data/x.xlsx], which is not the string [<root>/x.xlsx]. *)
Lemma get_excel_path_root_with_separator :
  isabs "x.xlsx" = false /\
  get_excel_path "/data/" "x.xlsx" = "/data/x.xlsx" /\
  get_excel_path "/data/" "x.xlsx" <> "/data/" ++ "/" ++ "x.xlsx".
Proof. repeat split. discriminate. Qed.

Section Dispatch.

Context {World : Type}.
Variable backend : backend_call -> World -> outcome * World.
Variable EXCEL_FILES_PATH : string.
Variable py_repr : PyVal -> string.
Variable fault_msg : fault -> string.

Local Abbreviation tool_call := (call_tool backend EXCEL_FILES_PATH py_repr fault_msg).
Local Abbreviation branch_body := (run_branch backend EXCEL_FILES_PATH py_repr fault_msg).
Local Abbreviation Comp := (M (World := World)).


(** ** Every call returns one text item *)









(** ** How an exception of the backend is rendered *)

(** Computations that leave the state alone. *)
Lemma traced_pure {A} (f : exn -> res A) (m : Comp A) :
  (forall st, snd (m st) = st) -> traced f m.
Proof. intros Hm st. exists []. rewrite Hm. split; [done|]. intros ? ? []. Qed.

Lemma traced_text (f : exn -> res (list TextContent)) (v : PyVal) :
  traced f (text_result (World := World) fault_msg v).
Proof. apply traced_pure. intros st. by destruct v. Qed.

Lemma traced_getitem (f : exn -> res PyVal) (v : PyVal) (key : string) :
  traced f (getitem (World := World) fault_msg v key).
Proof.
  apply traced_pure. intros st. unfold getitem.
  destruct v; try done. by destruct (dict_lookup key d).
Qed.

Lemma traced_py_iter (f : exn -> res (list PyVal)) (v : PyVal) :
  traced f (py_iter (World := World) fault_msg v).
Proof. apply traced_pure. intros st. by destruct v. Qed.

Lemma traced_call (c : backend_call) : traced Raise (call backend c).
Proof.
  intros st. unfold call. destruct (backend c (world st)) as [o w'].
  exists [(c, o)]. destruct o; (split; [done|]);
    intros c' e' [Heq|[]]; by simplify_eq.
Qed.

Lemma traced_if {A} (f : exn -> res A) (c : bool) (m1 m2 : Comp A) :
  traced f m1 -> traced f m2 -> traced f (if c then m1 else m2).
Proof. by destruct c. Qed.

(** Inside a [try] block: an exception cuts the rest of the block short. *)
Lemma traced_bind {A B} (m : Comp A) (k : A -> Comp B) :
  traced Raise m -> (forall a, traced Raise (k a)) -> traced Raise (bind m k).
Proof.
  intros Hm Hk st. unfold bind. destruct (Hm st) as (new1 & Hlog1 & Hraise1).
  destruct (m st) as [[a|e] st1] eqn:Hst; simpl in *.
  - destruct (Hk a st1) as (new2 & Hlog2 & Hraise2).
    exists (new2 ++ new1)%list. split.
    + by rewrite Hlog2, Hlog1, app_assoc.
    + intros c e [Hin|Hin]%in_app_or; [by apply (Hraise2 c)|].
      by specialize (Hraise1 _ _ Hin).
  - exists new1. split; [done|]. intros c e' Hin.
    specialize (Hraise1 _ _ Hin). congruence.
Qed.

(** Before the [try] block, the path is resolved; that calls no backend. *)
Lemma traced_resolve {B} (f : exn -> res B) (v : PyVal) (k : string -> Comp B) :
  (forall p, traced f (k p)) ->
  traced f (bind (get_excel_path_arg EXCEL_FILES_PATH fault_msg v) k).
Proof.
  intros Hk st. unfold bind, get_excel_path_arg.
  destruct v; try (exists []; split; [done|]; by intros ? ? []).
  apply Hk.
Qed.

Lemma traced_try (classes : list exc_class) (f : exn -> res (list TextContent))
    (body : Comp (list TextContent)) :
  (forall e, f e = if bool_decide (exn_class e ∈ classes)
                   then Ok [text_item ("Error: " ++ exn_msg e)] else Raise e) ->
  traced Raise body ->
  traced f (try_except classes body (error_result fault_msg)).
Proof.
  intros Hf Hbody st. unfold try_except.
  destruct (Hbody st) as (new & Hlog & Hraise). exists new.
  destruct (body st) as [[l|e] st1] eqn:Hst; simpl in *.
  - split; [done|]. intros c e Hin. by specialize (Hraise _ _ Hin).
  - assert (Hsame : forall c e', In (c, Raised e') new -> e' = e).
    { intros c e' Hin. specialize (Hraise _ _ Hin). congruence. }
    destruct (bool_decide (exn_class e ∈ classes)) eqn:Hc; simpl.
    + split; [done|]. intros c e' Hin. rewrite (Hsame _ _ Hin), Hf, Hc. done.
    + split; [done|]. intros c e' Hin. rewrite (Hsame _ _ Hin), Hf, Hc. done.
Qed.

Lemma traced_try_Exception (prefix : string) (body : Comp (list TextContent)) :
  traced Raise body ->
  traced (fun e => Ok [text_item (prefix ++ exn_msg e)])
    (try_except_Exception body
       (fun e => text_result fault_msg (PyStr (prefix ++ exn_msg e)))).
Proof.
  intros Hbody st. unfold try_except_Exception.
  destruct (Hbody st) as (new & Hlog & Hraise). exists new.
  destruct (body st) as [[l|e] st1] eqn:Hst; simpl in *.
  - split; [done|]. intros c e Hin. by specialize (Hraise _ _ Hin).
  - split; [done|]. intros c e' Hin. specialize (Hraise _ _ Hin). congruence.
Qed.

Ltac traced_block :=
  cbv zeta;
  repeat first
    [ apply traced_call
    | apply traced_getitem
    | apply traced_text
    | apply traced_py_iter
    | apply traced_if
    | apply traced_bind; [|intros ?; cbv zeta] ].

Lemma traced_branch (b : branch) (arguments : gmap string PyVal) :
  traced (branch_outcome b) (branch_body b arguments).
Proof.
  destruct b; cbv delta [run_branch]; cbv beta iota;
    cbv delta [tool_apply_formula tool_validate_formula_syntax tool_format_range
      tool_read_data_from_excel tool_write_data_to_excel tool_create_workbook
      tool_create_worksheet tool_create_chart tool_create_pivot_table
      tool_copy_worksheet tool_delete_worksheet tool_rename_worksheet
      tool_get_workbook_metadata tool_merge_cells tool_unmerge_cells
      tool_copy_range tool_delete_range tool_validate_excel_range
      missing_required missing_filepath]; cbv beta;
    apply traced_resolve; intros p; cbv zeta;
    (apply traced_if; [apply traced_text|]);
    first [ apply traced_try; [intros e; reflexivity | traced_block]
          | apply (traced_try_Exception "Error reading data: "); traced_block ].
Qed.

Lemma traced_call_tool (name : string) (b : branch) (arguments : gmap string PyVal) :
  route name = Some b ->
  traced (fun e => Ok [text_item (error_prefix b e ++ exn_msg e)])
    (tool_call name arguments).
Proof.
  intros Hroute st. unfold call_tool, try_except_Exception. rewrite Hroute.
  destruct (traced_branch b arguments st) as (new & Hlog & Hraise).
  exists new.
  destruct (branch_body b arguments st) as [[l|e] st1] eqn:Hst; simpl in *.
  - split; [done|]. intros c e Hin. rewrite (Hraise _ _ Hin).
    unfold branch_outcome, error_prefix in *. specialize (Hraise _ _ Hin).
    destruct b; try done;
      destruct (bool_decide (exn_class e ∈ _)); done.
  - split; [done|]. intros c e' Hin. specialize (Hraise _ _ Hin).
    unfold branch_outcome, error_prefix in *.
    destruct b; try done;
      destruct (bool_decide (exn_class e' ∈ _)); try done; congruence.
Qed.

(** C2, as amended.  When a backend function raises an exception [e] during
    a call of a tool, the text returned is a prefix followed by the message
    of [e], and the prefix is decided by the branch of the tool:
    - in every branch but that of [read_data_from_excel], "Error: " when
      the class of [e] is one of those named by the [except] clause at the
      call site of the branch, and "Error executing tool: " (the outer
      boundary) when it is any other class;
    - in the branch of [read_data_from_excel], whose call site catches
      every [Exception], always "Error reading data: ". *)
Theorem call_tool_backend_exception (name : string) (b : branch)
    (arguments : gmap string PyVal) (w : World) (c : backend_call) (e : exn) :
  route name = Some b ->
  In (c, Raised e) (events_of (run (tool_call name arguments) w)) ->
  result_of (run (tool_call name arguments) w) =
    Ok [text_item (error_prefix b e ++ exn_msg e)].
Proof.
  intros Hroute. unfold events_of, result_of, run.
  destruct (traced_call_tool name b arguments Hroute {| world := w; log := [] |})
    as (new & Hlog & Hraise).
  destruct (tool_call name arguments _) as [r st]; simpl in *.
  rewrite Hlog, app_nil_r. intros Hin%in_rev. by apply (Hraise c).
Qed.

(** ** What reaches the backend *)

Lemma truthy_str (s : string) : truthy (PyStr s) = true <-> s <> "".
Proof. simpl. destruct (String.eqb_spec s ""); naive_solver. Qed.

(** The path resolved from a file name that is not empty is not empty:
    the check of [filepath] that follows the resolver passes. *)
Lemma truthy_resolved (s : string) :
  s <> "" -> truthy (PyStr (get_excel_path EXCEL_FILES_PATH s)) = true.
Proof.
  intros Hs. apply truthy_str. unfold get_excel_path, path_join, isabs.
  destruct (startswith s "/"); [done|].
  destruct (_ || _); intros H.
  - destruct EXCEL_FILES_PATH; [done|discriminate].
  - destruct EXCEL_FILES_PATH; discriminate.
Qed.

Lemma silent_text (v : PyVal) : silent (text_result (World := World) fault_msg v).
Proof. intros st. by destruct v. Qed.

Lemma silent_getitem (v : PyVal) (key : string) :
  silent (getitem (World := World) fault_msg v key).
Proof. intros st. unfold getitem. destruct v; try done. by destruct (dict_lookup key d). Qed.

Lemma silent_py_iter (v : PyVal) : silent (py_iter (World := World) fault_msg v).
Proof. intros st. by destruct v. Qed.

Lemma silent_bind {A B} (m : Comp A) (k : A -> Comp B) :
  silent m -> (forall a, silent (k a)) -> silent (bind m k).
Proof.
  intros Hm Hk st. unfold bind. specialize (Hm st).
  destruct (m st) as [[a|e] st1]; simpl in *; subst; [apply Hk|done].
Qed.

Lemma silent_if {A} (c : bool) (m1 m2 : Comp A) :
  silent m1 -> silent m2 -> silent (if c then m1 else m2).
Proof. by destruct c. Qed.

Ltac silence :=
  cbv zeta;
  repeat first
    [ apply silent_text
    | apply silent_getitem
    | apply silent_py_iter
    | apply silent_if
    | apply silent_bind; [|intros ?; cbv zeta] ].

(** A handler that calls no backend function leaves the state of the
    block it guards. *)
Lemma state_try {A} (classes : list exc_class) (body : Comp A) (handler : exn -> Comp A) :
  (forall e, silent (handler e)) ->
  forall st, snd (try_except classes body handler st) = snd (body st).
Proof.
  intros Hh st. unfold try_except.
  destruct (body st) as [[a|e] st1]; [done|].
  destruct (bool_decide _); [apply Hh|done].
Qed.

Lemma state_try_Exception {A} (body : Comp A) (handler : exn -> Comp A) :
  (forall e, silent (handler e)) ->
  forall st, snd (try_except_Exception body handler st) = snd (body st).
Proof.
  intros Hh st. unfold try_except_Exception.
  destruct (body st) as [[a|e] st1]; [done|apply Hh].
Qed.

(** One backend call followed by code that calls no other. *)
Lemma state_call_then {A} (c : backend_call) (k : PyVal -> Comp A) :
  (forall v, silent (k v)) ->
  forall st, snd (bind (call backend c) k st) =
    {| world := snd (backend c (world st));
       log := (c, fst (backend c (world st))) :: log st |}.
Proof.
  intros Hk st. unfold bind, call.
  destruct (backend c (world st)) as [[v|e] w']; [apply Hk|done].
Qed.

Lemma calls_of_run {A} (m : Comp A) (w : World) :
  calls_of (run m w) = map fst (rev (log (snd (m {| world := w; log := [] |})))).
Proof. unfold calls_of, run. by destruct (m _). Qed.

Lemma bind_ret {A B} (a : A) (k : A -> Comp B) : bind (ret a) k = k a.
Proof. reflexivity. Qed.

Lemma arg_get_Some (arguments : gmap string PyVal) (key : string) (d v : PyVal) :
  arguments !! key = Some v -> arg_get arguments key d = v.
Proof. unfold arg_get. by intros ->. Qed.

Lemma arg_get_None (arguments : gmap string PyVal) (key : string) (d : PyVal) :
  arguments !! key = None -> arg_get arguments key d = d.
Proof. unfold arg_get. by intros ->. Qed.

Ltac use_args :=
  unfold get_excel_path_arg;
  repeat match goal with
  | H : _ !! _ = Some _ |- _ => rewrite !(arg_get_Some _ _ _ _ H)
  | H : _ !! _ = None |- _ => rewrite !(arg_get_None _ _ _ H)
  end;
  rewrite bind_ret; cbv zeta.

Ltac use_truthy :=
  unfold py_all, forallb;
  repeat match goal with
  | H : truthy _ = _ |- _ => rewrite !H
  end;
  cbv [negb andb].

(** The calls of a branch of the common shape: one backend call inside a
    [try] whose handlers call nothing. *)
Lemma calls_single (classes : list exc_class) (c : backend_call)
    (k : PyVal -> Comp (list TextContent)) (h h' : exn -> Comp (list TextContent)) (w : World) :
  (forall v, silent (k v)) -> (forall e, silent (h e)) -> (forall e, silent (h' e)) ->
  calls_of (run (try_except_Exception (try_except classes (bind (call backend c) k) h) h') w)
    = [c].
Proof.
  intros Hk Hh Hh'.
  by rewrite calls_of_run, (state_try_Exception _ _ Hh'), (state_try _ _ _ Hh),
    (state_call_then _ _ Hk).
Qed.

Lemma calls_single_Exception (c : backend_call)
    (k : PyVal -> Comp (list TextContent)) (h h' : exn -> Comp (list TextContent)) (w : World) :
  (forall v, silent (k v)) -> (forall e, silent (h e)) -> (forall e, silent (h' e)) ->
  calls_of (run (try_except_Exception (try_except_Exception (bind (call backend c) k) h) h') w)
    = [c].
Proof.
  intros Hk Hh Hh'.
  by rewrite calls_of_run, (state_try_Exception _ _ Hh'), (state_try_Exception _ _ Hh),
    (state_call_then _ _ Hk).
Qed.

Ltac unfold_branch :=
  cbv delta [call_tool]; cbv beta;
  match goal with
  | |- context [route ?n] =>
      let b := eval vm_compute in (route n) in change (route n) with b
  end;
  cbv delta [run_branch]; cbv iota beta;
  cbv delta [tool_apply_formula tool_validate_formula_syntax tool_format_range
      tool_read_data_from_excel tool_write_data_to_excel tool_create_workbook
      tool_create_worksheet tool_create_chart tool_create_pivot_table
      tool_copy_worksheet tool_delete_worksheet tool_rename_worksheet
      tool_get_workbook_metadata tool_merge_cells tool_unmerge_cells
      tool_copy_range tool_delete_range tool_validate_excel_range
      missing_required missing_filepath error_result]; cbv beta.

Ltac single_call :=
  first [apply calls_single | apply calls_single_Exception];
  intros ?; unfold error_result; silence.

(** C6.  For [validate_excel_range] with a file path, a sheet name and a
    start cell, the range passed to the backend is [start_cell + ":" +
    end_cell] when an end cell that is not empty is given as well, and the
    start cell alone when no end cell is given. *)
Theorem validate_excel_range_token (arguments : gmap string PyVal) (w : World)
    (p s : string) (sheet_name : PyVal) :
  arguments !! "filepath" = Some (PyStr p) -> p <> "" ->
  arguments !! "sheet_name" = Some sheet_name -> truthy sheet_name = true ->
  arguments !! "start_cell" = Some (PyStr s) -> s <> "" ->
  (forall e, arguments !! "end_cell" = Some (PyStr e) -> e <> "" ->
     calls_of (run (tool_call "validate_excel_range" arguments) w) =
       [validate_range_impl (get_excel_path EXCEL_FILES_PATH p) sheet_name
          (PyStr (s ++ ":" ++ e))]) /\
  (arguments !! "end_cell" = None ->
     calls_of (run (tool_call "validate_excel_range" arguments) w) =
       [validate_range_impl (get_excel_path EXCEL_FILES_PATH p) sheet_name (PyStr s)]).
Proof.
  intros Hp Hpne Hsheet Hst Hstart Hsne.
  pose proof (truthy_resolved p Hpne) as Hpath.
  apply truthy_str in Hsne.
  split.
  - intros e He Hene%truthy_str. unfold_branch. use_args. use_truthy.
    unfold py_str. single_call.
  - intros He. unfold_branch. use_args. use_truthy.
    cbv [negb truthy]. single_call.
Qed.


(** C8.  An optional argument that the bag does not hold reaches the
    backend as its default: [write_headers] as [True] for
    [write_data_to_excel], [agg_func] as "mean" for [create_pivot_table],
    [shift_direction] as "up" for [delete_range] and [preview_only] as
    [False] for [read_data_from_excel].  In each case the required
    arguments are given, so that the backend is called; it is called once,
    with the arguments shown. *)
Theorem optional_defaults (arguments : gmap string PyVal) (w : World)
    (p : string) (sheet_name : PyVal) :
  arguments !! "filepath" = Some (PyStr p) -> p <> "" ->
  arguments !! "sheet_name" = Some sheet_name -> truthy sheet_name = true ->
  let filepath := get_excel_path EXCEL_FILES_PATH p in
  (forall data,
     arguments !! "data" = Some data -> truthy data = true ->
     arguments !! "write_headers" = None ->
     calls_of (run (tool_call "write_data_to_excel" arguments) w) =
       [write_data filepath sheet_name data
          (arg_get arguments "start_cell" (PyStr "A1")) (PyBool true)]) /\
  (forall data_range rows values,
     arguments !! "data_range" = Some data_range -> truthy data_range = true ->
     arguments !! "rows" = Some rows -> truthy rows = true ->
     arguments !! "values" = Some values -> truthy values = true ->
     arguments !! "agg_func" = None ->
     calls_of (run (tool_call "create_pivot_table" arguments) w) =
       [create_pivot_table_impl filepath sheet_name data_range rows values
          (py_or (arg_get arguments "columns" (PyList [])) (PyList []))
          (PyStr "mean")]) /\
  (forall start_cell end_cell,
     arguments !! "start_cell" = Some start_cell -> truthy start_cell = true ->
     arguments !! "end_cell" = Some end_cell -> truthy end_cell = true ->
     arguments !! "shift_direction" = None ->
     calls_of (run (tool_call "delete_range" arguments) w) =
       [delete_range_operation filepath sheet_name start_cell end_cell (PyStr "up")]) /\
  (arguments !! "preview_only" = None ->
   calls_of (run (tool_call "read_data_from_excel" arguments) w) =
     [read_excel_range filepath sheet_name
        (arg_get arguments "start_cell" (PyStr "A1"))
        (arg_get arguments "end_cell" PyNone) (PyBool false)]).
Proof.
  intros Hp Hpne Hsheet Hst filepath.
  pose proof (truthy_resolved p Hpne) as Hpath. fold filepath in Hpath.
  repeat split.
  - intros data Hdata Htd Hnone. unfold_branch.
    use_args. fold filepath. use_truthy.
    single_call.
  - intros data_range rows values Hdr Htdr Hrows Htr Hvalues Htv Hnone. unfold_branch.
    use_args. fold filepath. use_truthy.
    single_call.
  - intros start_cell end_cell Hsc Htsc Hec Htec Hnone. unfold_branch.
    use_args. fold filepath. use_truthy.
    single_call.
  - intros Hnone. unfold_branch.
    use_args. fold filepath. use_truthy.
    single_call.
Qed.

(** A block that starts with a backend call has called the backend,
    whatever follows the call. *)
Lemma calls_after_call (classes : list exc_class) (c : backend_call)
    (k : PyVal -> Comp (list TextContent)) (h h' : exn -> Comp (list TextContent)) (w : World) :
  (forall v, traced Raise (k v)) -> (forall e, silent (h e)) -> (forall e, silent (h' e)) ->
  calls_of (run (try_except_Exception (try_except classes (bind (call backend c) k) h) h') w)
    <> [].
Proof.
  intros Hk Hh Hh'.
  rewrite calls_of_run, (state_try_Exception _ _ Hh'), (state_try _ _ _ Hh).
  unfold bind, call. simpl world.
  destruct (backend c w) as [[v|e] w1]; [|done].
  match goal with
  | |- context [k v ?st] => destruct (Hk v st) as (new & -> & _)
  end.
  simpl. rewrite rev_app_distr. done.
Qed.

Lemma calls_after_call_Exception (c : backend_call)
    (k : PyVal -> Comp (list TextContent)) (h h' : exn -> Comp (list TextContent)) (w : World) :
  (forall v, traced Raise (k v)) -> (forall e, silent (h e)) -> (forall e, silent (h' e)) ->
  calls_of (run (try_except_Exception (try_except_Exception (bind (call backend c) k) h) h') w)
    <> [].
Proof.
  intros Hk Hh Hh'.
  rewrite calls_of_run, (state_try_Exception _ _ Hh'), (state_try_Exception _ _ Hh).
  unfold bind, call. simpl world.
  destruct (backend c w) as [[v|e] w1]; [|done].
  match goal with
  | |- context [k v ?st] => destruct (Hk v st) as (new & -> & _)
  end.
  simpl. rewrite rev_app_distr. done.
Qed.

Ltac split_populated H :=
  repeat match type of H with
  | Forall _ (_ :: _) =>
      let Hk := fresh "Hk" in
      apply Forall_cons in H; destruct H as [Hk H];
      let v := fresh "v" in let Hs := fresh "Hs" in
      destruct Hk as (v & ? & ? & Hs);
      first [ destruct (Hs eq_refl) as (? & ->); clear Hs | clear Hs ]
  end.

(** C4.  The names of the catalog and the branches of the dispatcher are
    in step: the eighteen names of [list_tools] are distinct, they select,
    in the order of the catalog, the eighteen branches of [call_tool], one
    each; and a call of an advertised tool whose required parameters are
    all given takes the branch of that tool and invokes the backend (which
    the branch of the unknown tool never does). *)
Theorem catalog_names_dispatch :
  NoDup (map tool_name list_tools) /\
  map route (map tool_name list_tools) = map Some all_branches /\
  NoDup all_branches /\
  forall (t : Tool) (arguments : gmap string PyVal) (w : World),
    In t list_tools ->
    Forall (populated arguments) (required t) ->
    (exists b, route (tool_name t) = Some b) /\
    calls_of (run (tool_call (tool_name t) arguments) w) <> [].
Proof.
  split; [|split; [reflexivity|split]].
  - apply (bool_decide_unpack _). by vm_compute.
  - apply (bool_decide_unpack _). by vm_compute.
  - intros t arguments w Hin Hpop.
    split; [simpl in Hin; repeat (destruct Hin as [<-|Hin]; [by eexists|]); done|].
    simpl in Hin.
    repeat (destruct Hin as [<-|Hin];
      [ simpl required in Hpop; simpl tool_name; split_populated Hpop;
        match goal with
        | H : truthy (PyStr ?s) = true |- _ =>
            apply truthy_str in H; apply truthy_resolved in H
        end;
        unfold_branch; use_args; use_truthy;
        first [ apply calls_after_call | apply calls_after_call_Exception ];
        try (intros ?; unfold error_result; silence);
        intros ?; traced_block
      | ]).
    done.
Qed.

(** ** Missing parameters *)

(** A required parameter other than the file path that is omitted or empty
    ends the call before the backend is reached (the file path being absent
    or a string, so that resolving it does not raise). *)
Lemma call_tool_missing_parameter (t : Tool) (key : string)
    (arguments : gmap string PyVal) (w : World) :
  In t list_tools -> In key (required t) -> key <> "filepath" ->
  (arguments !! "filepath" = None \/ exists p, arguments !! "filepath" = Some (PyStr p)) ->
  omitted_or_empty arguments key ->
  run (tool_call (tool_name t) arguments) w =
    (Ok [text_item "Error: Missing required parameters"], w, []).
Proof.
  intros Hin Hkey Hne Hpath Hmiss. simpl in Hin.
  assert (Hfp : exists p, arg_get arguments "filepath" (PyStr "") = PyStr p).
  { destruct Hpath as [Hnone|[p Hp]]; unfold arg_get.
    - rewrite Hnone. by eexists.
    - rewrite Hp. by eexists. }
  destruct Hfp as [p Hfp].
  repeat (destruct Hin as [<-|Hin];
    [ simpl in Hkey;
      repeat (destruct Hkey as [<-|Hkey]; [try done|]); try done;
      unfold_branch; unfold get_excel_path_arg; rewrite Hfp, bind_ret; cbv zeta;
      (destruct Hmiss as [Hnone|(v & Hsome & Hfalse)];
        [ rewrite !(arg_get_None _ _ _ Hnone)
        | rewrite !(arg_get_Some _ _ _ _ Hsome) ]);
      unfold py_all, forallb; rewrite ?Hfalse; cbn [truthy String.eqb negb];
      rewrite ?andb_false_r; cbn [andb negb]; rewrite ?andb_false_r;
      reflexivity
    | ]).
  done.
Qed.

(** The check of the file path comes after the resolver, and the resolver
    never gives an empty path under a root directory that has a name: a
    call that omits the file path, or gives an empty one, passes the check
    when its other required parameters are given, and reaches the
    backend. *)
Lemma call_tool_without_filepath (t : Tool) (arguments : gmap string PyVal) (w : World) :
  EXCEL_FILES_PATH <> "" ->
  In t list_tools ->
  (arguments !! "filepath" = None \/ arguments !! "filepath" = Some (PyStr "")) ->
  Forall (fun key => key = "filepath" \/ populated arguments key) (required t) ->
  calls_of (run (tool_call (tool_name t) arguments) w) <> [].
Proof.
  intros Hroot Hin Hpath Hpop. simpl in Hin.
  assert (Hfp : arg_get arguments "filepath" (PyStr "") = PyStr "").
  { destruct Hpath as [H|H]; unfold arg_get; by rewrite H. }
  pose proof (get_excel_path_nonempty _ "" Hroot) as Hres%truthy_str.
  repeat (destruct Hin as [<-|Hin];
    [ simpl required in Hpop; simpl tool_name;
      repeat match type of Hpop with
      | Forall _ (_ :: _) =>
          let Hk := fresh "Hk" in
          apply Forall_cons in Hpop; destruct Hpop as [Hk Hpop];
          destruct Hk as [Hk|(? & ? & ? & _)]; [try discriminate Hk|]
      end;
      unfold_branch; unfold get_excel_path_arg; rewrite Hfp; use_args; use_truthy;
      first [ apply calls_after_call | apply calls_after_call_Exception ];
      try (intros ?; unfold error_result; silence);
      intros ?; traced_block
    | ]).
  done.
Qed.

(** C1, at the input on which the code departs from it.  The call
    [create_worksheet] with a sheet name and no file path, and the same call
    with the empty file path, under the default root directory: the resolver
    turns the missing path into "./excel_files/", the check for missing
    parameters passes, and the backend is called with that path.  The call
    is not answered with "Error: Missing required parameters" before the
    backend is reached. *)
Theorem missing_filepath_reaches_backend (w : World) :
  calls_of (run (call_tool backend default_root py_repr fault_msg "create_worksheet"
                   {[ "sheet_name" := PyStr "Sheet1" ]}) w) =
    [create_worksheet_impl "./excel_files/" (PyStr "Sheet1")] /\
  calls_of (run (call_tool backend default_root py_repr fault_msg "create_worksheet"
                   (<[ "filepath" := PyStr "" ]> {[ "sheet_name" := PyStr "Sheet1" ]})) w) =
    [create_worksheet_impl "./excel_files/" (PyStr "Sheet1")].
Proof.
  split.
  - assert (H1 : ({[ "sheet_name" := PyStr "Sheet1" ]} : gmap string PyVal) !! "filepath" = None)
      by (by vm_compute).
    assert (H2 : ({[ "sheet_name" := PyStr "Sheet1" ]} : gmap string PyVal) !! "sheet_name"
                 = Some (PyStr "Sheet1")) by (by vm_compute).
    unfold_branch. use_args. single_call.
  - set (args := <[ "filepath" := PyStr "" ]> _).
    assert (H1 : args !! "filepath" = Some (PyStr "")) by (by vm_compute).
    assert (H2 : args !! "sheet_name" = Some (PyStr "Sheet1")) by (by vm_compute).
    unfold_branch. use_args. single_call.
Qed.

(** An exception that leaves a branch, whatever raised it, is rendered by
    the outer boundary. *)
Lemma call_tool_outer_boundary (name : string) (b : branch)
    (arguments : gmap string PyVal) (st st' : state) (e : exn) :
  route name = Some b ->
  branch_body b arguments st = (Raise e, st') ->
  tool_call name arguments st =
    (Ok [text_item ("Error executing tool: " ++ exn_msg e)], st').
Proof.
  intros Hroute Hbody. unfold call_tool, try_except_Exception.
  by rewrite Hroute, Hbody.
Qed.

(** X13.  A file path that is not a string makes the resolver raise, before any
    check: the call is answered by the outer boundary, with the message of
    the [TypeError]. *)
Lemma call_tool_filepath_not_str (name : string) (b : branch)
    (arguments : gmap string PyVal) (w : World) (v : PyVal) :
  route name = Some b ->
  arguments !! "filepath" = Some v -> (forall s, v <> PyStr s) ->
  run (tool_call name arguments) w =
    (Ok [text_item ("Error executing tool: " ++ fault_msg (FspathOf v))], w, []).
Proof.
  intros Hroute Hv Hnot. unfold run.
  rewrite (call_tool_outer_boundary name b arguments _ {| world := w; log := [] |}
             (fault_exn fault_msg (FspathOf v)) Hroute); [done|].
  destruct b; cbv delta [run_branch]; cbv beta iota;
    cbv delta [tool_apply_formula tool_validate_formula_syntax tool_format_range
      tool_read_data_from_excel tool_write_data_to_excel tool_create_workbook
      tool_create_worksheet tool_create_chart tool_create_pivot_table
      tool_copy_worksheet tool_delete_worksheet tool_rename_worksheet
      tool_get_workbook_metadata tool_merge_cells tool_unmerge_cells
      tool_copy_range tool_delete_range tool_validate_excel_range]; cbv beta iota;
    rewrite (arg_get_Some _ _ _ _ Hv); unfold bind, get_excel_path_arg;
    destruct v; try reflexivity; by destruct (Hnot s).
Qed.

(** ** The checks of the required parameters, tool by tool *)

Lemma given_or_not (arguments : gmap string PyVal) (key : string) :
  omitted_or_empty arguments key \/
  exists v, arguments !! key = Some v /\ truthy v = true.
Proof.
  unfold omitted_or_empty. destruct (arguments !! key) as [v|]; [|by left; left].
  destruct (truthy v) eqn:Hv; [right|left; right]; by exists v.
Qed.

Lemma required_given_or_not (arguments : gmap string PyVal) (keys : list string) :
  (exists key, In key keys /\ key <> "filepath" /\ omitted_or_empty arguments key) \/
  Forall (fun key => key = "filepath" \/ populated arguments key) keys.
Proof.
  induction keys as [|key keys IH]; [by right|].
  destruct IH as [(k & Hin & Hne & Hom)|Hall].
  { left. exists k. split; [by right|]. by split. }
  destruct (decide (key = "filepath")) as [->|Hne].
  { right. constructor; [by left|done]. }
  destruct (given_or_not arguments key) as [Hom|(v & Hv & Ht)].
  - left. exists key. split; [by left|]. by split.
  - right. constructor; [|done]. right. exists v. split; [done|]. by split.
Qed.

(** With the file path absent or a string, and the other required
    parameters given, the call reaches the backend. *)
Lemma call_tool_reaches_backend (t : Tool) (arguments : gmap string PyVal) (w : World) :
  EXCEL_FILES_PATH <> "" ->
  In t list_tools ->
  (arguments !! "filepath" = None \/ exists p, arguments !! "filepath" = Some (PyStr p)) ->
  Forall (fun key => key = "filepath" \/ populated arguments key) (required t) ->
  calls_of (run (tool_call (tool_name t) arguments) w) <> [].
Proof.
  intros Hroot Hin Hpath Hpop. simpl in Hin.
  assert (Hfp : exists p, arg_get arguments "filepath" (PyStr "") = PyStr p).
  { destruct Hpath as [H|[p H]]; unfold arg_get; rewrite H; by eexists. }
  destruct Hfp as [p Hfp].
  pose proof (get_excel_path_nonempty _ p Hroot) as Hres%truthy_str.
  repeat (destruct Hin as [<-|Hin];
    [ simpl required in Hpop; simpl tool_name;
      repeat match type of Hpop with
      | Forall _ (_ :: _) =>
          let Hk := fresh "Hk" in
          apply Forall_cons in Hpop; destruct Hpop as [Hk Hpop];
          destruct Hk as [Hk|(? & ? & ? & _)]; [try discriminate Hk|]
      end;
      unfold_branch; unfold get_excel_path_arg; rewrite Hfp; use_args; use_truthy;
      first [ apply calls_after_call | apply calls_after_call_Exception ];
      try (intros ?; unfold error_result; silence);
      intros ?; traced_block
    | ]).
  done.
Qed.

(** X1.  The check of the required parameters agrees with the schema of
    the catalog, the file path apart: under a root directory that has a
    name, and with the file path absent or a string, a call of an
    advertised tool is answered "Error: Missing required parameters",
    without a backend call, exactly when a required parameter other than
    the file path is omitted or empty. *)
Theorem missing_parameter_iff (t : Tool) (arguments : gmap string PyVal) (w : World) :
  EXCEL_FILES_PATH <> "" ->
  In t list_tools ->
  (arguments !! "filepath" = None \/ exists p, arguments !! "filepath" = Some (PyStr p)) ->
  run (tool_call (tool_name t) arguments) w =
    (Ok [text_item "Error: Missing required parameters"], w, [])
  <->
  exists key, In key (required t) /\ key <> "filepath" /\ omitted_or_empty arguments key.
Proof.
  intros Hroot Hin Hpath. split.
  - intros Hrun.
    destruct (required_given_or_not arguments (required t)) as [Hex|Hall]; [done|].
    exfalso. apply (call_tool_reaches_backend t arguments w Hroot Hin Hpath Hall).
    by rewrite Hrun.
  - intros (key & Hkey & Hne & Hom).
    by apply (call_tool_missing_parameter t key).
Qed.

(** ** Applying a formula *)

(** X2.  [apply_formula] validates before it applies.  When the validation
    returns a dictionary with an entry "error", the formula is not applied:
    the only backend call is the validation, and the text is "Error: "
    followed by that entry.  When the validation returns anything else, the
    formula is applied next, on the file system the validation left, and
    these are the two backend calls of the request, in this order. *)
Theorem apply_formula_validation_gate (arguments : gmap string PyVal) (w w1 : World)
    (p : string) (sheet_name cell formula validation : PyVal) :
  arguments !! "filepath" = Some (PyStr p) -> p <> "" ->
  arguments !! "sheet_name" = Some sheet_name -> truthy sheet_name = true ->
  arguments !! "cell" = Some cell -> truthy cell = true ->
  arguments !! "formula" = Some formula -> truthy formula = true ->
  let filepath := get_excel_path EXCEL_FILES_PATH p in
  let validate := validate_formula_impl filepath sheet_name cell formula in
  let apply := apply_formula_impl filepath sheet_name cell formula in
  backend validate w = (Returned validation, w1) ->
  (forall d err, validation = PyDict d -> dict_lookup "error" d = Some err ->
     run (tool_call "apply_formula" arguments) w =
       (Ok [text_item ("Error: " ++ py_str py_repr err)], w1,
        [(validate, Returned validation)])) /\
  (is_dict_with "error" validation = false ->
   forall o w2, backend apply w1 = (o, w2) ->
     events_of (run (tool_call "apply_formula" arguments) w) =
       [(validate, Returned validation); (apply, o)] /\
     snd (fst (run (tool_call "apply_formula" arguments) w)) = w2).
Proof.
  intros Hp Hpne Hsheet Hst Hcell Htc Hformula Htf filepath validate apply Hback.
  pose proof (truthy_resolved p Hpne) as Hpath.
  split.
  - intros d err -> Herr. unfold_branch. use_args. use_truthy.
    fold filepath. fold validate.
    unfold run, try_except_Exception, try_except, bind, call. simpl world.
    rewrite Hback. unfold is_dict_with, getitem. rewrite Herr. reflexivity.
  - intros Hnot o w2 Hback2. unfold events_of. unfold_branch. use_args. use_truthy.
    fold filepath. fold validate. fold apply.
    unfold run, try_except_Exception, try_except, bind, call. simpl world.
    rewrite Hback, Hnot. simpl world. rewrite Hback2.
    destruct o as [r|e]; simpl.
    + unfold getitem, text_result, ret, raise.
      repeat (case_match; simplify_eq; simpl; try done).
    + unfold error_result, text_result, ret.
      repeat (case_match; simplify_eq; simpl; try done).
Qed.

(** ** The text of a success *)

Ltac enter_or_skip Hback :=
  unfold_branch; unfold get_excel_path_arg;
  destruct (arg_get _ "filepath" (PyStr "")) as [| | | |path| |];
    try (intros Hc; exfalso; apply Hc; reflexivity);
  rewrite bind_ret; cbv zeta;
  match goal with
  | |- context [negb ?b] => destruct b; cbv [negb]
  end;
    try (intros Hc; exfalso; apply Hc; reflexivity);
  intros _;
  unfold result_of, run, try_except_Exception, try_except, bind, call; simpl world;
  match goal with
  | |- context [backend ?c ?w] =>
      let Hc := fresh "Hc" in
      pose proof (Hback c) as Hc;
      destruct (backend c w) as [? ?]; simpl in Hc; subst
  end.

(** X3.  For the thirteen tools that answer with the message of the
    backend: when the backend is reached and returns a dictionary, the text
    is its entry "message" if that is a string.  A payload without the
    entry, or with an entry that is not a string, is answered by the outer
    boundary as an error, although the backend call has succeeded. *)
Theorem message_rendering (name : string) (arguments : gmap string PyVal) (w : World)
    (d : list (string * PyVal)) :
  In name message_tools ->
  (forall c, fst (backend c w) = Returned (PyDict d)) ->
  calls_of (run (tool_call name arguments) w) <> [] ->
  (forall m, dict_lookup "message" d = Some (PyStr m) ->
     result_of (run (tool_call name arguments) w) = Ok [text_item m]) /\
  (dict_lookup "message" d = None ->
     result_of (run (tool_call name arguments) w) =
       Ok [text_item ("Error executing tool: " ++ fault_msg (MissingKey "message"))]) /\
  (forall v, dict_lookup "message" d = Some v -> (forall m, v <> PyStr m) ->
     result_of (run (tool_call name arguments) w) =
       Ok [text_item ("Error executing tool: " ++ fault_msg (TextNotStr v))]).
Proof.
  intros Hin Hback. simpl in Hin.
  repeat (destruct Hin as [<-|Hin];
    [ enter_or_skip Hback; unfold getitem; simpl;
      split; [|split];
      [ intros m ->; reflexivity
      | intros ->; reflexivity
      | intros v -> Hnot; destruct v; try reflexivity; by destruct (Hnot s) ]
    | ]).
  done.
Qed.

(** X4.  Three tools answer a success without reading a message from the
    payload.  When the backend is reached and returns, whatever value it
    returns: [format_range] answers "Range formatted successfully",
    [create_workbook] answers "Created workbook at " followed by the
    resolved path (not by the file name as the caller gave it), and
    [get_workbook_metadata] answers [str] of the value returned. *)
Theorem fixed_success_texts (arguments : gmap string PyVal) (w : World) (v : PyVal) :
  (forall c, fst (backend c w) = Returned v) ->
  (calls_of (run (tool_call "format_range" arguments) w) <> [] ->
   result_of (run (tool_call "format_range" arguments) w) =
     Ok [text_item "Range formatted successfully"]) /\
  (forall p, arg_get arguments "filepath" (PyStr "") = PyStr p ->
   calls_of (run (tool_call "create_workbook" arguments) w) <> [] ->
   result_of (run (tool_call "create_workbook" arguments) w) =
     Ok [text_item ("Created workbook at " ++ get_excel_path EXCEL_FILES_PATH p)]) /\
  (calls_of (run (tool_call "get_workbook_metadata" arguments) w) <> [] ->
   result_of (run (tool_call "get_workbook_metadata" arguments) w) =
     Ok [text_item (py_str py_repr v)]).
Proof.
  intros Hback. split; [|split].
  - enter_or_skip Hback. reflexivity.
  - intros p Hp. unfold_branch. unfold get_excel_path_arg. rewrite Hp, bind_ret.
    match goal with
    | |- context [negb ?b] => destruct b; cbv [negb]
    end; [|intros Hc; exfalso; apply Hc; reflexivity].
    intros _.
    unfold result_of, run, try_except_Exception, try_except, bind, call; simpl world.
    pose proof (Hback (create_workbook_impl (get_excel_path EXCEL_FILES_PATH p))) as Hc.
    destruct (backend _ w) as [? ?]; simpl in Hc; subst. reflexivity.
  - enter_or_skip Hback. reflexivity.
Qed.

(** ** The backend calls of one request *)

Lemma route_apply_formula (name : string) :
  route name = Some b_apply_formula -> name = "apply_formula".
Proof.
  unfold route. destruct (String.eqb_spec name "apply_formula"); [done|].
  repeat (case_match; try discriminate).
Qed.

(** X5.  One request resolves the file path once and every backend call
    it makes receives that resolved path.  A request makes at most two
    backend calls, and at most one unless the tool is [apply_formula]. *)
Theorem backend_calls_of_a_request (name : string) (arguments : gmap string PyVal)
    (w : World) :
  (forall c, In c (calls_of (run (tool_call name arguments) w)) ->
     exists p, arg_get arguments "filepath" (PyStr "") = PyStr p /\
               call_filepath c = get_excel_path EXCEL_FILES_PATH p) /\
  length (calls_of (run (tool_call name arguments) w)) <= 2 /\
  (name <> "apply_formula" ->
   length (calls_of (run (tool_call name arguments) w)) <= 1).
Proof.
  destruct (route name) as [b|] eqn:Hroute.
  2:{ unfold call_tool. rewrite Hroute. simpl. split; [by intros c []|]. split; lia. }
  assert (Hname : b = b_apply_formula -> name = "apply_formula").
  { intros ->. by apply route_apply_formula. }
  unfold call_tool. rewrite Hroute. clear Hroute.
  destruct b; cbv delta [run_branch]; cbv beta iota;
    cbv delta [tool_apply_formula tool_validate_formula_syntax tool_format_range
      tool_read_data_from_excel tool_write_data_to_excel tool_create_workbook
      tool_create_worksheet tool_create_chart tool_create_pivot_table
      tool_copy_worksheet tool_delete_worksheet tool_rename_worksheet
      tool_get_workbook_metadata tool_merge_cells tool_unmerge_cells
      tool_copy_range tool_delete_range tool_validate_excel_range
      missing_required missing_filepath error_result]; cbv beta;
    unfold get_excel_path_arg;
    (destruct (arg_get arguments "filepath" (PyStr "")) as [| | | |path| |];
      try (simpl; split; [by intros c []|]; split; lia));
    rewrite bind_ret; cbv zeta;
    match goal with
    | |- context [negb ?b] => destruct b; cbv [negb]
    end;
    try (simpl; split; [by intros c []|]; split; lia).
  2-18: match goal with
    | |- context [calls_of ?r] =>
        let Hcs := fresh "Hcs" in
        assert (Hcs : exists c, calls_of r = [c] /\ call_filepath c = get_excel_path EXCEL_FILES_PATH path)
          by (eexists; split; [single_call|reflexivity]);
        destruct Hcs as (c0 & -> & Hc0)
    end;
    (split; [intros c [<-|[]]; by exists path|]; simpl; split; lia).
  unfold calls_of, run, try_except_Exception, try_except, bind, call. simpl world.
  destruct (backend _ w) as [[v|e] w1]; simpl.
  - destruct (is_dict_with "error" v); simpl.
    + unfold getitem, text_result, ret, raise.
      repeat (case_match; simplify_eq; simpl);
        (split; [intros c [<-|[]]; by exists path|]; split; lia).
    + destruct (backend _ w1) as [[v2|e2] w2]; simpl;
        unfold getitem, error_result, text_result, ret, raise;
        repeat (case_match; simplify_eq; simpl);
        (split; [intros c [<-|[<-|[]]]; by exists path|]; split;
          [lia|intros Hne; by destruct (Hne (Hname eq_refl))]).
  - unfold error_result, text_result, ret.
    repeat (case_match; simplify_eq; simpl);
      (split; [intros c [<-|[]]; by exists path|]; split; lia).
Qed.

(** X6.  A validation that raises ends the request of [apply_formula]:
    the formula is not applied, the validation is the only backend call,
    and the exception is rendered under "Error: " when it is a validation
    or a calculation error and under "Error executing tool: " otherwise. *)
Theorem apply_formula_validation_raises (arguments : gmap string PyVal) (w w1 : World)
    (p : string) (sheet_name cell formula : PyVal) (e : exn) :
  arguments !! "filepath" = Some (PyStr p) -> p <> "" ->
  arguments !! "sheet_name" = Some sheet_name -> truthy sheet_name = true ->
  arguments !! "cell" = Some cell -> truthy cell = true ->
  arguments !! "formula" = Some formula -> truthy formula = true ->
  let validate := validate_formula_impl (get_excel_path EXCEL_FILES_PATH p)
                    sheet_name cell formula in
  backend validate w = (Raised e, w1) ->
  run (tool_call "apply_formula" arguments) w =
    (Ok [text_item
           ((if bool_decide (exn_class e ∈ [ValidationError; CalculationError])
             then "Error: " else "Error executing tool: ") ++ exn_msg e)],
     w1, [(validate, Raised e)]).
Proof.
  intros Hp Hpne Hsheet Hst Hcell Htc Hformula Htf validate Hback.
  pose proof (truthy_resolved p Hpne) as Hpath.
  unfold_branch. use_args. use_truthy. fold validate.
  unfold run, try_except_Exception, try_except, bind, call. simpl world.
  rewrite Hback. destruct (bool_decide _); reflexivity.
Qed.

(** X7.  The range of [validate_excel_range], for cells of any type: an
    end cell that is absent, [None] or empty is ignored and the start cell
    is passed on as it is; otherwise the range is [str(start_cell)], ":" and
    [str(end_cell)] in one string. *)
Theorem validate_excel_range_any_cells (arguments : gmap string PyVal) (w : World)
    (p : string) (sheet_name start_cell : PyVal) :
  arguments !! "filepath" = Some (PyStr p) -> p <> "" ->
  arguments !! "sheet_name" = Some sheet_name -> truthy sheet_name = true ->
  arguments !! "start_cell" = Some start_cell -> truthy start_cell = true ->
  let end_cell := arg_get arguments "end_cell" PyNone in
  calls_of (run (tool_call "validate_excel_range" arguments) w) =
    [validate_range_impl (get_excel_path EXCEL_FILES_PATH p) sheet_name
       (if truthy end_cell
        then PyStr (py_str py_repr start_cell ++ ":" ++ py_str py_repr end_cell)
        else start_cell)].
Proof.
  intros Hp Hpne Hsheet Hst Hstart Htstart end_cell.
  pose proof (truthy_resolved p Hpne) as Hpath.
  unfold_branch. use_args. use_truthy. fold end_cell.
  destruct (truthy end_cell); cbv [negb]; single_call.
Qed.

End Dispatch.

(** ** Reading a resource *)

Section ResourceProperties.

Context {World : Type}.
Variable backend : backend_call -> World -> outcome * World.
Variable EXCEL_FILES_PATH : string.
Variable py_repr : PyVal -> string.
Variable unquote : string -> string.
Variable path_exists : string -> World -> bool.
Variable duration : backend_call -> World -> N.

Local Abbreviation resource :=
  (read_resource backend EXCEL_FILES_PATH py_repr unquote path_exists duration).

(** [uri[8:]] *)
Local Abbreviation after_scheme uri := (String.substring 8 (String.length uri - 8) uri).




End ResourceProperties.

Example read_resource_missing_file :
  read_resource ok_backend default_root sample_repr sample_unquote
    no_path_exists slow_duration "excel://gone.xlsx" tt =
    ("Error: File not found: gone.xlsx", 0%N).
Proof. reflexivity. Qed.

Example read_resource_bad_scheme :
  read_resource ok_backend default_root sample_repr sample_unquote
    every_path_exists slow_duration "file://gone.xlsx" tt =
    ("Error reading resource: Invalid URI scheme: file://gone.xlsx", 0%N).
Proof. reflexivity. Qed.

(** C9, at the input on which the code departs from it.  The file of the
    resource [excel://big.xlsx] exists and the fetch of its metadata takes
    twenty seconds.  The text returned is that of the timeout, but it is
    returned after twenty seconds, when the worker is done, and not at the
    bound of fifteen: the call blocks past the bound. *)
Theorem read_resource_blocks_past_timeout :
  read_resource ok_backend default_root sample_repr sample_unquote
    every_path_exists slow_duration "excel://big.xlsx" tt =
    ("Error: Operation timed out while reading Excel file", 20000%N) /\
  (timeout_ms < 20000)%N.
Proof. split; reflexivity. Qed.

(** ** More on the path resolver *)

Lemma string_length_app (a b : string) :
  String.length (a ++ b) = String.length a + String.length b.
Proof. induction a as [|c a IH]; simpl; [done|by rewrite IH]. Qed.

Lemma isabs_app (a b : string) : a <> "" -> isabs (a ++ b) = isabs a.
Proof. by destruct a. Qed.

Lemma path_join_length (root f : string) :
  isabs f = false -> root <> "" ->
  String.length f < String.length (path_join root f).
Proof.
  intros Hrel Hroot. rewrite (path_join_relative _ _ Hrel).
  destruct root as [|c root]; [done|].
  destruct (_ || _); rewrite !string_length_app; simpl; lia.
Qed.

(** X8.  What a resolved path is: it is absolute exactly when the file
    name or the root directory is.  Resolving is then stable: a resolved
    path that is absolute resolves to itself.  Under a relative root
    directory (the default [./excel_files] is one) it is not: the resolved
    form of a relative file name is relative again, and resolving it once
    more gives a longer path, under the root twice. *)
Theorem get_excel_path_absolute (root f : string) :
  isabs (get_excel_path root f) = isabs f || isabs root /\
  (isabs f || isabs root = true ->
   get_excel_path root (get_excel_path root f) = get_excel_path root f) /\
  (isabs f = false -> isabs root = false -> root <> "" ->
   get_excel_path root (get_excel_path root f) =
     path_join root (path_join root f) /\
   get_excel_path root (get_excel_path root f) <> get_excel_path root f).
Proof.
  assert (Habs : isabs (get_excel_path root f) = isabs f || isabs root).
  { unfold get_excel_path. destruct (isabs f) eqn:Hf; [done|].
    rewrite (path_join_relative _ _ Hf). destruct root as [|c root]; [done|].
    destruct (_ || _); by rewrite isabs_app. }
  split; [done|]. split.
  - intros H. rewrite <- Habs in H. unfold get_excel_path at 1. by rewrite H.
  - intros Hf Hroot Hne.
    assert (Hrel : isabs (get_excel_path root f) = false) by (by rewrite Habs, Hf, Hroot).
    assert (Heq : get_excel_path root f = path_join root f).
    { unfold get_excel_path. by rewrite Hf. }
    split.
    + unfold get_excel_path at 1. by rewrite Hrel, Heq.
    + unfold get_excel_path at 1. rewrite Hrel. intros H.
      pose proof (path_join_length root (get_excel_path root f) Hrel Hne) as Hlen.
      rewrite H in Hlen. lia.
Qed.

(** ** More on reading a resource *)

Lemma substring_whole (s : string) : String.substring 0 (String.length s) s = s.
Proof. induction s as [|c s IH]; simpl; [done|by rewrite IH]. Qed.

Lemma substring_skip (a b : string) (m : nat) :
  String.substring (String.length a) m (a ++ b) = String.substring 0 m b.
Proof. induction a as [|c a IH]; simpl; [done|exact IH]. Qed.



Section ResourceFetch.

Context {World : Type}.
Variable backend : backend_call -> World -> outcome * World.
Variable EXCEL_FILES_PATH : string.
Variable py_repr : PyVal -> string.
Variable unquote : string -> string.
Variable path_exists : string -> World -> bool.
Variable duration : backend_call -> World -> N.

Local Abbreviation resource :=
  (read_resource backend EXCEL_FILES_PATH py_repr unquote path_exists duration).


End ResourceFetch.

(** ** Listing the resources *)

Lemma substring_split (s : string) (n : nat) :
  n <= String.length s ->
  s = String.substring 0 n s ++ String.substring n (String.length s - n) s.
Proof.
  revert n. induction s as [|c s IH]; intros n Hn; simpl in *.
  - by destruct n.
  - destruct n as [|n]; simpl.
    + by rewrite substring_whole.
    + change (String c s = String c (String.substring 0 n s ++
        String.substring n (String.length s - n) s)).
      f_equal. apply IH. lia.
Qed.

(** X10.  [endswith] tests a suffix: it holds exactly of the strings that
    are some string followed by the suffix; so a directory entry passes the
    filter of [list_resources] exactly when it is a stem, possibly empty,
    followed by ".xlsx", ".xls" or ".xlsm" in lower case. *)
Theorem has_excel_extension_iff (file : string) :
  (forall suffix, endswith file suffix = true <-> exists stem, file = stem ++ suffix) /\
  (has_excel_extension file = true <->
   exists stem, file = stem ++ ".xlsx" \/ file = stem ++ ".xls" \/ file = stem ++ ".xlsm").
Proof.
  assert (Hends : forall suffix,
            endswith file suffix = true <-> exists stem, file = stem ++ suffix).
  { intros suffix. unfold endswith. rewrite andb_true_iff, Nat.leb_le. split.
    - intros [Hlen Heq%String.eqb_eq].
      exists (String.substring 0 (String.length file - String.length suffix) file).
      pose proof (substring_split file (String.length file - String.length suffix)) as Hs.
      replace (String.length file - (String.length file - String.length suffix))
        with (String.length suffix) in Hs by lia.
      rewrite Heq in Hs. apply Hs. lia.
    - intros [stem ->]. rewrite string_length_app. split; [lia|].
      apply String.eqb_eq.
      replace (String.length stem + String.length suffix - String.length suffix)
        with (String.length stem) by lia.
      rewrite substring_skip. apply substring_whole. }
  split; [exact Hends|].
  unfold has_excel_extension. simpl. rewrite !orb_true_iff, !Hends. split.
  - intros [[stem H]|[[stem H]|[[stem H]|H]]]; [exists stem..|done]; tauto.
  - intros [stem [H|[H|H]]]; [left|right; left|right; right; left]; by exists stem.
Qed.

Section ListingProperties.

Context {World : Type}.
Variable EXCEL_FILES_PATH : string.
Variable listdir : string -> World -> res (list string).
Variable quote : string -> string.
Variable any_url : string -> option string.
Variable url_error : string -> string.

Local Abbreviation loop := (list_resources_loop quote any_url url_error).
Local Abbreviation resources :=
  (list_resources EXCEL_FILES_PATH listdir quote any_url url_error).
Local Abbreviation is_listed := (listed quote any_url).

Lemma list_resources_loop_Ok (entries : list string) (files out : list Resource) :
  loop entries files = Ok out ->
  exists rest, out = (files ++ rest)%list /\
               Forall2 is_listed (filter (fun f => has_excel_extension f = true) entries) rest.
Proof.
  revert files. induction entries as [|file entries IH]; intros files; simpl.
  - intros [= <-]. exists []. by rewrite app_nil_r.
  - rewrite filter_cons. destruct (has_excel_extension file) eqn:Hext.
    + unfold make_resource. destruct (any_url _) as [u|] eqn:Hu; [|done].
      intros (rest & -> & Hrest)%IH.
      eexists (_ :: rest). rewrite <- app_assoc. split; [done|].
      rewrite decide_True by done. constructor; [|done]. by repeat split.
    + rewrite decide_False by done. apply IH.
Qed.

Lemma list_resources_loop_valid (entries : list string) (files : list Resource) :
  (forall f, In f entries -> has_excel_extension f = true ->
             any_url ("excel://" ++ quote f) <> None) ->
  exists out, loop entries files = Ok out.
Proof.
  revert files. induction entries as [|file entries IH]; intros files Hvalid; simpl.
  - by eexists.
  - destruct (has_excel_extension file) eqn:Hext.
    + unfold make_resource. destruct (any_url _) as [u|] eqn:Hu.
      * apply IH. intros f Hf. apply Hvalid. by right.
      * by destruct (Hvalid file (or_introl eq_refl) Hext).
    + apply IH. intros f Hf. apply Hvalid. by right.
Qed.

Lemma list_resources_loop_invalid (entries : list string) (files : list Resource) :
  (exists f, In f entries /\ has_excel_extension f = true /\
             any_url ("excel://" ++ quote f) = None) ->
  exists e, loop entries files = Raise e.
Proof.
  revert files. induction entries as [|file entries IH]; intros files (f & Hin & Hext & Hu).
  - destruct Hin.
  - simpl. destruct Hin as [->|Hin].
    + rewrite Hext. unfold make_resource. rewrite Hu. by eexists.
    + destruct (has_excel_extension file).
      * unfold make_resource.
        destruct (any_url ("excel://" ++ quote file)); [|by eexists].
        apply IH. exists f. by split.
      * apply IH. exists f. by split.
Qed.

(** X11.  When the directory can be listed and the URL of every entry
    with an Excel extension is accepted, [list_resources] returns one
    resource for each such entry and none for the others, in the order of
    the directory listing: its name is the entry, its URI the validated form
    of "excel://" followed by the quoted entry.  When one such entry has a
    URL that is rejected, or when the directory cannot be listed, the
    result is the empty list: one bad name hides every file. *)
Theorem list_resources_listing (w : World) (entries : list string) :
  listdir EXCEL_FILES_PATH w = Ok entries ->
  ((forall f, In f entries -> has_excel_extension f = true ->
              any_url ("excel://" ++ quote f) <> None) ->
   Forall2 is_listed (filter (fun f => has_excel_extension f = true) entries)
     (resources w)) /\
  ((exists f, In f entries /\ has_excel_extension f = true /\
              any_url ("excel://" ++ quote f) = None) ->
   resources w = []).
Proof.
  intros Hdir. unfold list_resources. rewrite Hdir. split.
  - intros Hvalid. destruct (list_resources_loop_valid entries [] Hvalid) as [out Hout].
    rewrite Hout. by destruct (list_resources_loop_Ok _ _ _ Hout) as (rest & -> & Hrest).
  - intros Hbad. by destruct (list_resources_loop_invalid entries [] Hbad) as [e ->].
Qed.


End ListingProperties.

(** ** From the list of resources to reading one *)

Section ListThenRead.

Context {World : Type}.
Variable backend : backend_call -> World -> outcome * World.
Variable EXCEL_FILES_PATH : string.
Variable py_repr : PyVal -> string.
Variable unquote : string -> string.
Variable path_exists : string -> World -> bool.
Variable duration : backend_call -> World -> N.
Variable listdir : string -> World -> res (list string).
Variable quote : string -> string.
Variable any_url : string -> option string.
Variable url_error : string -> string.


End ListThenRead.

(** ** The theorems at concrete calls *)


(** C2 as stated fails in the branch of [read_data_from_excel]: an
    exception of the backend that is no domain error is caught at the call
    site and rendered under "Error reading data: ", not at the outer
    boundary under "Error executing tool: ". *)
Lemma read_data_exception_prefix :
  is_domain_kind OtherException = false /\
  result_of (run (call_tool (raising_backend (Exn OtherException "boom")) default_root
                    sample_repr sample_fault_msg "read_data_from_excel" sheet_args) tt)
    = Ok [text_item "Error reading data: boom"] /\
  result_of (run (call_tool (raising_backend (Exn OtherException "boom")) default_root
                    sample_repr sample_fault_msg "read_data_from_excel" sheet_args) tt)
    <> Ok [text_item "Error executing tool: boom"].
Proof. split; [reflexivity|]. split; [by vm_compute|]. vm_compute. discriminate. Qed.

Lemma call_tool_backend_exception_witness :
  result_of (run (call_tool (raising_backend (Exn OtherException "boom")) default_root
                    sample_repr sample_fault_msg "create_worksheet" sheet_args) tt)
    = Ok [text_item ("Error executing tool: " ++ "boom")] /\
  result_of (run (call_tool (raising_backend (Exn SheetError "no sheet")) default_root
                    sample_repr sample_fault_msg "delete_worksheet" sheet_args) tt)
    = Ok [text_item ("Error: " ++ "no sheet")] /\
  result_of (run (call_tool (raising_backend (Exn SheetError "no sheet")) default_root
                    sample_repr sample_fault_msg "read_data_from_excel" sheet_args) tt)
    = Ok [text_item ("Error reading data: " ++ "no sheet")].
Proof.
  split; [|split].
  - apply (call_tool_backend_exception (raising_backend (Exn OtherException "boom"))
             default_root sample_repr sample_fault_msg "create_worksheet" b_create_worksheet
             sheet_args tt
             (create_worksheet_impl "./excel_files/book.xlsx" (PyStr "Sheet1"))
             (Exn OtherException "boom")).
    + reflexivity.
    + vm_compute. left. reflexivity.
  - apply (call_tool_backend_exception (raising_backend (Exn SheetError "no sheet"))
             default_root sample_repr sample_fault_msg "delete_worksheet" b_delete_worksheet
             sheet_args tt
             (delete_sheet "./excel_files/book.xlsx" (PyStr "Sheet1"))
             (Exn SheetError "no sheet")).
    + reflexivity.
    + vm_compute. left. reflexivity.
  - apply (call_tool_backend_exception (raising_backend (Exn SheetError "no sheet"))
             default_root sample_repr sample_fault_msg "read_data_from_excel"
             b_read_data_from_excel sheet_args tt
             (read_excel_range "./excel_files/book.xlsx" (PyStr "Sheet1") (PyStr "A1")
                PyNone (PyBool false))
             (Exn SheetError "no sheet")).
    + reflexivity.
    + vm_compute. left. reflexivity.
Defined.

Lemma catalog_names_dispatch_witness :
  (exists b, route (tool_name create_worksheet_tool) = Some b) /\
  calls_of (run (call_tool ok_backend default_root sample_repr sample_fault_msg
                   (tool_name create_worksheet_tool) sheet_args) tt) <> [].
Proof.
  apply (proj2 (proj2 (proj2
           (catalog_names_dispatch ok_backend default_root sample_repr sample_fault_msg)))
           create_worksheet_tool sheet_args tt).
  - simpl. do 6 right. left. reflexivity.
  - repeat apply Forall_cons_2; [| |apply Forall_nil_2].
    + exists (PyStr "book.xlsx"). split; [by vm_compute|]. split; [reflexivity|].
      intros _. by eexists.
    + exists (PyStr "Sheet1"). split; [by vm_compute|]. split; [reflexivity|].
      intros H. discriminate H.
Defined.

Lemma validate_excel_range_token_witness :
  calls_of (run (call_tool ok_backend default_root sample_repr sample_fault_msg
                   "validate_excel_range" range_args) tt) =
    [validate_range_impl "./excel_files/book.xlsx" (PyStr "Sheet1") (PyStr "A1:B2")] /\
  calls_of (run (call_tool ok_backend default_root sample_repr sample_fault_msg
                   "validate_excel_range" start_only_args) tt) =
    [validate_range_impl "./excel_files/book.xlsx" (PyStr "Sheet1") (PyStr "A1")].
Proof.
  split.
  - refine (proj1 (validate_excel_range_token ok_backend default_root sample_repr
                     sample_fault_msg range_args tt "book.xlsx" "A1" (PyStr "Sheet1")
                     _ _ _ _ _ _) "B2" _ _); by vm_compute.
  - refine (proj2 (validate_excel_range_token ok_backend default_root sample_repr
                     sample_fault_msg start_only_args tt "book.xlsx" "A1" (PyStr "Sheet1")
                     _ _ _ _ _ _) _); by vm_compute.
Defined.


Lemma optional_defaults_witness :
  calls_of (run (call_tool ok_backend default_root sample_repr sample_fault_msg
                   "write_data_to_excel" write_args) tt) =
    [write_data "./excel_files/book.xlsx" (PyStr "Sheet1")
       (PyList [PyList [PyStr "h"]; PyList [PyInt 1]]) (PyStr "A1") (PyBool true)] /\
  calls_of (run (call_tool ok_backend default_root sample_repr sample_fault_msg
                   "create_pivot_table" pivot_args) tt) =
    [create_pivot_table_impl "./excel_files/book.xlsx" (PyStr "Sheet1") (PyStr "A1:C9")
       (PyList [PyStr "region"]) (PyList [PyStr "sales"]) (PyList []) (PyStr "mean")] /\
  calls_of (run (call_tool ok_backend default_root sample_repr sample_fault_msg
                   "delete_range" range_args) tt) =
    [delete_range_operation "./excel_files/book.xlsx" (PyStr "Sheet1") (PyStr "A1")
       (PyStr "B2") (PyStr "up")] /\
  calls_of (run (call_tool ok_backend default_root sample_repr sample_fault_msg
                   "read_data_from_excel" sheet_args) tt) =
    [read_excel_range "./excel_files/book.xlsx" (PyStr "Sheet1") (PyStr "A1") PyNone
       (PyBool false)].
Proof.
  split; [|split; [|split]].
  - refine (proj1 (optional_defaults ok_backend default_root sample_repr sample_fault_msg
                     write_args tt "book.xlsx" (PyStr "Sheet1") _ _ _ _)
                  (PyList [PyList [PyStr "h"]; PyList [PyInt 1]]) _ _ _); by vm_compute.
  - refine (proj1 (proj2 (optional_defaults ok_backend default_root sample_repr
                     sample_fault_msg pivot_args tt "book.xlsx" (PyStr "Sheet1") _ _ _ _))
                  (PyStr "A1:C9") (PyList [PyStr "region"]) (PyList [PyStr "sales"])
                  _ _ _ _ _ _ _); by vm_compute.
  - refine (proj1 (proj2 (proj2 (optional_defaults ok_backend default_root sample_repr
                     sample_fault_msg range_args tt "book.xlsx" (PyStr "Sheet1") _ _ _ _)))
                  (PyStr "A1") (PyStr "B2") _ _ _ _ _); by vm_compute.
  - refine (proj2 (proj2 (proj2 (optional_defaults ok_backend default_root sample_repr
                     sample_fault_msg sheet_args tt "book.xlsx" (PyStr "Sheet1") _ _ _ _)))
                  _); by vm_compute.
Defined.

Lemma missing_parameter_iff_witness :
  run (call_tool ok_backend default_root sample_repr sample_fault_msg
         (tool_name create_worksheet_tool)
         (<[ "sheet_name" := PyStr "" ]> sheet_args)) tt =
    (Ok [text_item "Error: Missing required parameters"], tt, []).
Proof.
  apply (proj2 (missing_parameter_iff ok_backend default_root sample_repr sample_fault_msg
                  create_worksheet_tool (<[ "sheet_name" := PyStr "" ]> sheet_args) tt
                  ltac:(discriminate)
                  ltac:(simpl; do 6 right; left; reflexivity)
                  ltac:(right; exists "book.xlsx"; by vm_compute))).
  exists "sheet_name". split; [simpl; tauto|]. split; [discriminate|].
  right. exists (PyStr ""). split; by vm_compute.
Defined.

Lemma apply_formula_validation_gate_witness :
  run (call_tool rejecting_backend default_root sample_repr sample_fault_msg
         "apply_formula" formula_args) tt =
    (Ok [text_item ("Error: " ++ "bad formula")], tt,
     [(validate_formula_impl "./excel_files/book.xlsx" (PyStr "Sheet1") (PyStr "A1")
         (PyStr "=SUM(B1:B2)"),
       Returned (PyDict [("error", PyStr "bad formula")]))]) /\
  events_of (run (call_tool ok_backend default_root sample_repr sample_fault_msg
                    "apply_formula" formula_args) tt) =
    [(validate_formula_impl "./excel_files/book.xlsx" (PyStr "Sheet1") (PyStr "A1")
        (PyStr "=SUM(B1:B2)"), Returned (PyDict [("message", PyStr "ok")]));
     (apply_formula_impl "./excel_files/book.xlsx" (PyStr "Sheet1") (PyStr "A1")
        (PyStr "=SUM(B1:B2)"), Returned (PyDict [("message", PyStr "ok")]))].
Proof.
  split.
  - refine (proj1 (apply_formula_validation_gate rejecting_backend default_root sample_repr
                     sample_fault_msg formula_args tt tt "book.xlsx" (PyStr "Sheet1")
                     (PyStr "A1") (PyStr "=SUM(B1:B2)")
                     (PyDict [("error", PyStr "bad formula")])
                     _ _ _ _ _ _ _ _ _)
                  [("error", PyStr "bad formula")] (PyStr "bad formula") _ _);
      by vm_compute.
  - refine (proj1 (proj2 (apply_formula_validation_gate ok_backend default_root sample_repr
                     sample_fault_msg formula_args tt tt "book.xlsx" (PyStr "Sheet1")
                     (PyStr "A1") (PyStr "=SUM(B1:B2)")
                     (PyDict [("message", PyStr "ok")])
                     _ _ _ _ _ _ _ _ _) _
                  (Returned (PyDict [("message", PyStr "ok")])) tt _));
      by vm_compute.
Defined.

Lemma message_rendering_witness :
  result_of (run (call_tool ok_backend default_root sample_repr sample_fault_msg
                    "create_worksheet" sheet_args) tt) = Ok [text_item "ok"] /\
  result_of (run (call_tool silent_backend default_root sample_repr sample_fault_msg
                    "create_worksheet" sheet_args) tt) =
    Ok [text_item ("Error executing tool: " ++ sample_fault_msg (MissingKey "message"))] /\
  result_of (run (call_tool numeric_message_backend default_root sample_repr
                    sample_fault_msg "create_worksheet" sheet_args) tt) =
    Ok [text_item ("Error executing tool: " ++ sample_fault_msg (TextNotStr (PyInt 5)))].
Proof.
  split; [|split].
  - refine (proj1 (message_rendering ok_backend default_root sample_repr sample_fault_msg
                     "create_worksheet" sheet_args tt [("message", PyStr "ok")] _ _ _)
                  "ok" _); try (by vm_compute). simpl. tauto.
  - refine (proj1 (proj2 (message_rendering silent_backend default_root sample_repr
                     sample_fault_msg "create_worksheet" sheet_args tt
                     [("status", PyStr "done")] _ _ _)) _); try (by vm_compute).
    simpl. tauto.
  - refine (proj2 (proj2 (message_rendering numeric_message_backend default_root
                     sample_repr sample_fault_msg "create_worksheet" sheet_args tt
                     [("message", PyInt 5)] _ _ _)) (PyInt 5) _ _);
      try (by vm_compute). simpl. tauto.
Defined.

Lemma fixed_success_texts_witness :
  result_of (run (call_tool number_backend default_root sample_repr sample_fault_msg
                    "format_range" start_only_args) tt) =
    Ok [text_item "Range formatted successfully"] /\
  result_of (run (call_tool number_backend default_root sample_repr sample_fault_msg
                    "create_workbook" sheet_args) tt) =
    Ok [text_item ("Created workbook at " ++ "./excel_files/book.xlsx")] /\
  result_of (run (call_tool number_backend default_root sample_repr sample_fault_msg
                    "get_workbook_metadata" sheet_args) tt) =
    Ok [text_item (sample_repr (PyInt 5))].
Proof.
  split; [|split].
  - refine (proj1 (fixed_success_texts number_backend default_root sample_repr
                     sample_fault_msg start_only_args tt (PyInt 5) _) _); by vm_compute.
  - refine (proj1 (proj2 (fixed_success_texts number_backend default_root sample_repr
                     sample_fault_msg sheet_args tt (PyInt 5) _)) "book.xlsx" _ _);
      by vm_compute.
  - refine (proj2 (proj2 (fixed_success_texts number_backend default_root sample_repr
                     sample_fault_msg sheet_args tt (PyInt 5) _)) _); by vm_compute.
Defined.

Lemma apply_formula_validation_raises_witness :
  run (call_tool (raising_backend (Exn CalculationError "bad formula")) default_root
         sample_repr sample_fault_msg "apply_formula" formula_args) tt =
    (Ok [text_item ("Error: " ++ "bad formula")], tt,
     [(validate_formula_impl "./excel_files/book.xlsx" (PyStr "Sheet1") (PyStr "A1")
         (PyStr "=SUM(B1:B2)"), Raised (Exn CalculationError "bad formula"))]).
Proof.
  refine (apply_formula_validation_raises (raising_backend (Exn CalculationError "bad formula"))
            default_root sample_repr sample_fault_msg formula_args tt tt "book.xlsx"
            (PyStr "Sheet1") (PyStr "A1") (PyStr "=SUM(B1:B2)")
            (Exn CalculationError "bad formula") _ _ _ _ _ _ _ _ _); by vm_compute.
Defined.

Lemma validate_excel_range_any_cells_witness :
  calls_of (run (call_tool ok_backend default_root sample_repr sample_fault_msg
                   "validate_excel_range" empty_end_args) tt) =
    [validate_range_impl "./excel_files/book.xlsx" (PyStr "Sheet1") (PyStr "A1")].
Proof.
  refine (validate_excel_range_any_cells ok_backend default_root sample_repr
            sample_fault_msg empty_end_args tt "book.xlsx" (PyStr "Sheet1") (PyStr "A1")
            _ _ _ _ _ _); by vm_compute.
Defined.

Lemma call_tool_filepath_not_str_witness :
  run (call_tool ok_backend default_root sample_repr sample_fault_msg
         "create_worksheet" numeric_path_args) tt =
    (Ok [text_item ("Error executing tool: " ++ sample_fault_msg (FspathOf (PyInt 7)))],
     tt, []).
Proof.
  refine (call_tool_filepath_not_str ok_backend default_root sample_repr sample_fault_msg
            "create_worksheet" b_create_worksheet numeric_path_args tt (PyInt 7) _ _ _);
    by vm_compute.
Defined.

Lemma get_excel_path_absolute_witness :
  get_excel_path "/data" (get_excel_path "/data" "x.xlsx") = get_excel_path "/data" "x.xlsx" /\
  get_excel_path default_root (get_excel_path default_root "x.xlsx") <>
    get_excel_path default_root "x.xlsx".
Proof.
  split.
  - apply (proj1 (proj2 (get_excel_path_absolute "/data" "x.xlsx"))). reflexivity.
  - apply (proj2 (proj2 (get_excel_path_absolute default_root "x.xlsx")));
      [reflexivity | reflexivity | discriminate].
Defined.





Lemma list_resources_listing_witness :
  Forall2 (listed sample_quote keep_url) ["a.xlsx"; "c.xlsm"; "old.xls"]
    (list_resources default_root sample_listdir sample_quote keep_url sample_url_error tt) /\
  list_resources default_root sample_listdir sample_quote picky_url sample_url_error tt = [].
Proof.
  split.
  - apply (proj1 (list_resources_listing default_root sample_listdir sample_quote keep_url
                    sample_url_error tt
                    ["a.xlsx"; "b.txt"; "c.xlsm"; "old.xls"; "UPPER.XLSX"] eq_refl)).
    intros f _ _. discriminate.
  - apply (proj2 (list_resources_listing default_root sample_listdir sample_quote
                    picky_url sample_url_error tt
                    ["a.xlsx"; "b.txt"; "c.xlsm"; "old.xls"; "UPPER.XLSX"] eq_refl)).
    exists "c.xlsm". split; [simpl; tauto|]. split; reflexivity.
Defined.

